(** * Decision engine of the Monopoly bot (integration/board_mapping.py and
    integration/strategic_ai.py): a shallow embedding and its properties,
    followed by the handlers of integration/strategic_bot.py that call the
    engine and the amount parser of integration/game_state_extractor.py.

    Python [int] is [Z]; Python [float] is IEEE binary64, taken as Rocq's
    primitive [float], whose operations round exactly as CPython's do.
    A [Set[int]] is a [gset Z], a [Dict[int,int]] a [gmap Z Z]; the module
    level dict literals, whose insertion order is observable through
    [.items()], are association lists.  A Python exception is the [None]
    of an [option] result. *)

From Stdlib Require Import ZArith Lia Bool.
From Stdlib Require Import Floats.PrimFloat Floats.SpecFloat Floats.FloatOps.
From stdpp Require Import gmap strings list sorting pretty.

Set Warnings "-inexact-float,-clear-no-such-hyp".
Local Open Scope string_scope.
Local Open Scope Z_scope.

(** ** Python primitives *)

Module Py.

(** [d[k]] on a dict literal kept as an association list. *)
Fixpoint lookup {K V : Type} `{EqDecision K} (k : K) (d : list (K * V)) : option V :=
  match d with
  | [] => None
  | (k', v) :: d' => if decide (k = k') then Some v else lookup k d'
  end.

(** [d.get(k, dflt)]. *)
Definition get {K V : Type} `{EqDecision K} (k : K) (d : list (K * V)) (dflt : V) : V :=
  default dflt (lookup k d).

(** [d.get(k)] / [d.get(k, dflt)] where the key may be [None], which
    is a key of none of the tables. *)
Definition lookup_o {K V : Type} `{EqDecision K} (k : option K) (d : list (K * V)) : option V :=
  match k with
  | Some k' => lookup k' d
  | None => None
  end.

Definition get_o {K V : Type} `{EqDecision K} (k : option K) (d : list (K * V)) (dflt : V) : V :=
  default dflt (lookup_o k d).

(** Conversion of an [int] operand in mixed [int]/[float] arithmetic:
    round to nearest, ties to even.  Where CPython raises OverflowError
    (magnitude beyond the largest double) this yields an infinity; every
    such conversion in the engine is the operand of a product that is
    passed to [int(...)], which then fails in its place. *)
Definition float_of_int (z : Z) : float :=
  SF2Prim (binary_normalize prec emax z 0 false).

(** [int(x)]: truncation toward zero; OverflowError / ValueError on an
    infinity or a NaN. *)
Definition int_of_float (x : float) : option Z :=
  match Prim2SF x with
  | S754_zero _ => Some 0
  | S754_finite s m e =>
      let a := Z.shiftl (Z.pos m) e in
      Some (if s then - a else a)
  | S754_infinity _ => None
  | S754_nan => None
  end.

(** [int(n * x)] for an [int] n and a [float] x. *)
Definition int_mul (n : Z) (x : float) : option Z :=
  int_of_float (float_of_int n * x)%float.

(** [min(l)] on a list of ints (0 stands for the ValueError on []). *)
Definition min_list (l : list Z) : Z :=
  match l with
  | [] => 0
  | x :: l' => fold_left Z.min l' x
  end.

(** [sum(l)] on a list of ints. *)
Definition sum (l : list Z) : Z := fold_left Z.add l 0.

(** [x > y] and [x >= y] on floats. *)
Definition gt (x y : float) : bool := (y <? x)%float.
Definition ge (x y : float) : bool := (y <=? x)%float.

End Py.

(** ** board_mapping.py: the static tables *)

Definition GROUP_QUALITY : list (string * float) :=
  [ ("brown", 0.85%float); ("lightBlue", 0.95%float); ("pink", 0.95%float);
    ("orange", 1.00%float); ("red", 1.05%float); ("yellow", 1.20%float);
    ("green", 1.30%float); ("darkBlue", 1.15%float);
    ("railroad", 1.00%float); ("utility", 0.90%float) ].

Definition LANDING_PROBABILITIES : list (Z * float) :=
  [ (24, 0.0316%float); (0, 0.0312%float); (21, 0.0305%float);
    (25, 0.0303%float); (10, 0.062%float); (5, 0.0289%float);
    (15, 0.0286%float); (35, 0.0280%float) ].

Definition PROPERTY_PRICES : list (Z * Z) :=
  [ (1, 60); (3, 60);
    (6, 100); (8, 100); (9, 120);
    (11, 140); (13, 140); (14, 160);
    (16, 180); (18, 180); (19, 200);
    (21, 220); (23, 220); (24, 240);
    (26, 260); (27, 260); (29, 280);
    (31, 300); (32, 300); (34, 320);
    (37, 350); (39, 400);
    (5, 200); (15, 200); (25, 200); (35, 200);
    (12, 150); (28, 150) ].

Definition RENT_TABLE : list (Z * list Z) :=
  [ (1, [2; 4; 10; 30; 90; 160; 250]);
    (3, [4; 8; 20; 60; 180; 320; 450]);
    (6, [6; 12; 30; 90; 270; 400; 550]);
    (8, [6; 12; 30; 90; 270; 400; 550]);
    (9, [8; 16; 40; 100; 300; 450; 600]);
    (11, [10; 20; 50; 150; 450; 625; 750]);
    (13, [10; 20; 50; 150; 450; 625; 750]);
    (14, [12; 24; 60; 180; 500; 700; 900]);
    (16, [14; 28; 70; 200; 550; 750; 950]);
    (18, [14; 28; 70; 200; 550; 750; 950]);
    (19, [16; 32; 80; 220; 600; 800; 1000]);
    (21, [18; 36; 90; 250; 700; 875; 1050]);
    (23, [18; 36; 90; 250; 700; 875; 1050]);
    (24, [20; 40; 100; 300; 750; 925; 1100]);
    (26, [22; 44; 110; 330; 800; 975; 1150]);
    (27, [22; 44; 110; 330; 800; 975; 1150]);
    (29, [24; 48; 120; 360; 850; 1025; 1200]);
    (31, [26; 52; 130; 390; 900; 1100; 1275]);
    (32, [26; 52; 130; 390; 900; 1100; 1275]);
    (34, [28; 56; 150; 450; 1000; 1200; 1400]);
    (37, [35; 70; 175; 500; 1100; 1300; 1500]);
    (39, [50; 100; 200; 600; 1400; 1700; 2000]) ].

Definition POSITION_TO_GROUP : list (Z * string) :=
  [ (1, "brown"); (3, "brown");
    (6, "lightBlue"); (8, "lightBlue"); (9, "lightBlue");
    (11, "pink"); (13, "pink"); (14, "pink");
    (16, "orange"); (18, "orange"); (19, "orange");
    (21, "red"); (23, "red"); (24, "red");
    (26, "yellow"); (27, "yellow"); (29, "yellow");
    (31, "green"); (32, "green"); (34, "green");
    (37, "darkBlue"); (39, "darkBlue");
    (5, "railroad"); (15, "railroad"); (25, "railroad"); (35, "railroad");
    (12, "utility"); (28, "utility") ].

Definition GROUP_PROPERTIES : list (string * list Z) :=
  [ ("brown", [1; 3]);
    ("lightBlue", [6; 8; 9]);
    ("pink", [11; 13; 14]);
    ("orange", [16; 18; 19]);
    ("red", [21; 23; 24]);
    ("yellow", [26; 27; 29]);
    ("green", [31; 32; 34]);
    ("darkBlue", [37; 39]);
    ("railroad", [5; 15; 25; 35]);
    ("utility", [12; 28]) ].

Definition HOUSE_COST : list (string * Z) :=
  [ ("brown", 50); ("lightBlue", 50); ("pink", 100); ("orange", 100);
    ("red", 150); ("yellow", 150); ("green", 200); ("darkBlue", 200) ].

(** ** board_mapping.py: PropertyInfo and BoardMapper *)

Record PropertyInfo := {
  pi_position : Z;
  pi_group : option string;
  pi_price : Z;
  pi_rents : list Z
}.

(** [PropertyInfo.__init__] (the display name is not modelled). *)
Definition PropertyInfo_init (position : Z) : PropertyInfo :=
  {| pi_position := position;
     pi_group := Py.lookup position POSITION_TO_GROUP;
     pi_price := Py.get position PROPERTY_PRICES 0;
     pi_rents := Py.get position RENT_TABLE (replicate 7 0) |}.

(** [PropertyInfo.get_rent]; the callers pass level 0 or 1. *)
Definition get_rent (prop : PropertyInfo) (level : nat) : Z :=
  match pi_rents prop !! level with
  | Some r => r
  | None => List.last (pi_rents prop) 0
  end.

Definition get_landing_probability (prop : PropertyInfo) : float :=
  Py.get (pi_position prop) LANDING_PROBABILITIES 0.025%float.

(** [BoardMapper.properties]: one PropertyInfo per key of PROPERTY_PRICES. *)
Definition board_properties : list (Z * PropertyInfo) :=
  map (fun kv => (fst kv, PropertyInfo_init (fst kv))) PROPERTY_PRICES.

Definition get_group_quality (group : option string) : float :=
  Py.get_o group GROUP_QUALITY 1.0%float.

Definition get_group_properties (group : option string) : list Z :=
  Py.get_o group GROUP_PROPERTIES [].

(** [all(pos in owned_positions for pos in group_props)]. *)
Definition has_monopoly (owned_positions : gset Z) (group : option string) : bool :=
  forallb (fun pos => bool_decide (pos ∈ owned_positions)) (get_group_properties group).

(** ** strategic_ai.py: the snapshot records *)

Record PlayerState := {
  player_id : string;
  cash : Z;
  properties : gset Z;
  position : Z;
  in_jail : bool;
  mortgaged : gset Z;
  houses : gmap Z Z
}.

Record GameState := {
  my_state : PlayerState;
  opponents : list PlayerState;
  current_turn : string;
  turn_number : Z;
  available_houses : Z;
  available_hotels : Z
}.

Record TradeOffer := {
  from_player : string;
  to_player : string;
  properties_offered : gset Z;
  properties_requested : gset Z;
  cash_offered : Z;
  cash_requested : Z
}.

(** The generated dataclass [__eq__] compares field by field. *)
Global Instance PlayerState_eq_dec : EqDecision PlayerState.
Proof. solve_decision. Defined.

Global Instance TradeOffer_eq_dec : EqDecision TradeOffer.
Proof. solve_decision. Defined.

(** [PlayerState(player_id, cash, properties)] with the remaining fields
    at their dataclass defaults. *)
Definition PlayerState_new (pid : string) (c : Z) (props : gset Z) : PlayerState :=
  {| player_id := pid; cash := c; properties := props; position := 0;
     in_jail := false; mortgaged := ∅; houses := ∅ |}.

(** [GameState(my_state, opponents, current_turn)] with default counters. *)
Definition GameState_new (me : PlayerState) (opps : list PlayerState) (turn : string) : GameState :=
  {| my_state := me; opponents := opps; current_turn := turn;
     turn_number := 0; available_houses := 32; available_hotels := 12 |}.

(** The attributes set by [StrategicAI.__init__]. *)
Record StrategicAI := {
  base_bid_premium : float;
  max_debt_ratio : float;
  max_absolute_debt : Z;
  absolute_min_cash : Z;
  smart_blocking : bool;
  min_quality_ratio : float;
  max_quality_ratio : float
}.

Definition StrategicAI_init : StrategicAI :=
  {| base_bid_premium := 0.05%float;
     max_debt_ratio := 0.15%float;
     max_absolute_debt := 400;
     absolute_min_cash := 75;
     smart_blocking := true;
     min_quality_ratio := 0.85%float;
     max_quality_ratio := 1.40%float |}.

(** The assignment [ai.smart_blocking = b] on a fresh engine. *)
Definition with_smart_blocking (b : bool) (ai : StrategicAI) : StrategicAI :=
  {| base_bid_premium := base_bid_premium ai;
     max_debt_ratio := max_debt_ratio ai;
     max_absolute_debt := max_absolute_debt ai;
     absolute_min_cash := absolute_min_cash ai;
     smart_blocking := b;
     min_quality_ratio := min_quality_ratio ai;
     max_quality_ratio := max_quality_ratio ai |}.

(** The snapshot [state] with the acting player's cash replaced. *)
Definition with_cash (c : Z) (state : GameState) : GameState :=
  let p := my_state state in
  {| my_state := {| player_id := player_id p; cash := c;
                    properties := properties p; position := position p;
                    in_jail := in_jail p; mortgaged := mortgaged p;
                    houses := houses p |};
     opponents := opponents state;
     current_turn := current_turn state;
     turn_number := turn_number state;
     available_houses := available_houses state;
     available_hotels := available_hotels state |}.

(** ** strategic_ai.py: valuation *)

(** [get_monopoly_quality]: the loop over [GROUP_PROPERTIES.items()],
    starting from 0 and adding the quality of every complete group. *)
Definition get_monopoly_quality (props : gset Z) : float :=
  fold_left
    (fun quality gp =>
       if forallb (fun pos => bool_decide (pos ∈ props)) (snd gp)
       then (quality + Py.get (fst gp) GROUP_QUALITY 1.0)%float
       else quality)
    GROUP_PROPERTIES 0%float.

(** [houses.get(pos, 0)]. *)
Definition houses_get (h : gmap Z Z) (pos : Z) : Z := default 0 (h !! pos).

(** ** strategic_ai.py: purchase decision *)

(** The generator summed in the blocking test: the opponents other than
    [opp] that do not hold [position] but hold some member of [group_props]. *)
Definition other_blockers (state : GameState) (opp : PlayerState)
    (position : Z) (group_props : list Z) : Z :=
  Py.sum
    (map (fun _ => 1)
       (filter (fun o => o ≠ opp ∧ (position ∉ properties o) ∧
                         (existsb (fun p => bool_decide (p ∈ properties o)) group_props = true))
               (opponents state))).

(** The [for opp in state.opponents] loop of [should_buy_property]:
    [Some true] is the early [return True], [None] is falling out of the
    loop. *)
Fixpoint buy_blocking_loop (ai : StrategicAI) (state : GameState)
    (position : Z) (group : string) (opps : list PlayerState) : option bool :=
  match opps with
  | [] => None
  | opp :: rest =>
      if has_monopoly (properties opp ∪ {[position]}) (Some group) then
        if smart_blocking ai then
          if other_blockers state opp position (Py.get group GROUP_PROPERTIES []) =? 0
          then Some true
          else buy_blocking_loop ai state position group rest
        else Some true
      else buy_blocking_loop ai state position group rest
  end.

Definition should_buy_property (ai : StrategicAI) (state : GameState)
    (position price : Z) : bool :=
  let player := my_state state in
  if cash player - price <? absolute_min_cash ai then false
  else
    match Py.lookup position POSITION_TO_GROUP with
    | None => true
    | Some group =>
        let props_after := properties player ∪ {[position]} in
        if has_monopoly props_after (Some group) then true
        else
          match buy_blocking_loop ai state position group (opponents state) with
          | Some r => r
          | None => absolute_min_cash ai + 100 <=? cash player - price
          end
    end.

(** ** strategic_ai.py: the functions that iterate over a set

    CPython enumerates a set in the order of its hash table, which the
    language leaves unspecified and which depends on how the set object
    was built, not on its elements alone: a set of the snapshot and a set
    of the same elements computed during a call may be enumerated in
    different orders.  The functions below take the order of the
    snapshot's sets as [set_iter] and the order of the sets they build
    themselves as [built_iter]; the results about them hold for every
    pair of enumerations. *)

(** [BoardMapper.calculate_ept], enumerating [owned_positions] by [iter]. *)
Definition calculate_ept (iter : gset Z → list Z)
    (owned_positions : gset Z) (num_opponents : Z) : float :=
  fold_left
    (fun total_ept pos =>
       match Py.lookup pos board_properties with
       | None => total_ept
       | Some prop =>
           let has := has_monopoly owned_positions (pi_group prop) in
           let level := if has then 1%nat else 0%nat in
           let rent := get_rent prop level in
           let prob := get_landing_probability prop in
           (total_ept + prob * Py.float_of_int rent * Py.float_of_int num_opponents)%float
       end)
    (iter owned_positions) 0%float.

Section Engine.

Variable set_iter : gset Z → list Z.
Variable built_iter : gset Z → list Z.

Definition calculate_net_worth (player : PlayerState) : Z :=
  fold_left
    (fun worth pos =>
       let price := Py.get pos PROPERTY_PRICES 0 in
       if bool_decide (pos ∈ mortgaged player) then worth + Z.div price 2
       else
         let worth := worth + price in
         let n := houses_get (houses player) pos in
         match Py.lookup pos POSITION_TO_GROUP with
         | Some group =>
             if 0 <? n then worth + n * Py.get group HOUSE_COST 100 else worth
         | None => worth
         end)
    (set_iter (properties player)) (cash player).

(** ** Auction bidding *)

(** The [for opp in state.opponents] loop of [get_auction_bid]; it is left
    by [break] at the first opponent the position would complete a group
    for, with or without the 30% raise. *)
Fixpoint auction_blocking_loop (ai : StrategicAI) (state : GameState)
    (position : Z) (group : option string) (opps : list PlayerState)
    (max_bid : Z) : option Z :=
  match opps with
  | [] => Some max_bid
  | opp :: rest =>
      if has_monopoly (properties opp ∪ {[position]}) group then
        if smart_blocking ai then
          if other_blockers state opp position (get_group_properties group) =? 0
          then Py.int_mul max_bid 1.3
          else Some max_bid
        else Py.int_mul max_bid 1.3
      else auction_blocking_loop ai state position group rest max_bid
  end.

(** [max_bid] as it stands before the debt constraint, for the face
    value [price] read from the table. *)
Definition premium_max_bid (ai : StrategicAI) (state : GameState)
    (position price : Z) : option Z :=
  let player := my_state state in
  let group := Py.lookup position POSITION_TO_GROUP in
  max_bid ← Py.int_mul price (1 + base_bid_premium ai);
  let props_after := properties player ∪ {[position]} in
  max_bid ← (if bool_decide (is_Some group) && has_monopoly props_after group
             then Py.int_mul max_bid 1.5
             else Some max_bid);
  auction_blocking_loop ai state position group (opponents state) max_bid.

(** [affordable]: cash plus the remaining mortgage headroom, less the
    reserve. *)
Definition affordable_bid (ai : StrategicAI) (player : PlayerState) : option Z :=
  let net_worth := calculate_net_worth player in
  ratio_debt ← Py.int_mul net_worth (max_debt_ratio ai);
  let max_debt := Z.min (max_absolute_debt ai) ratio_debt in
  let current_debt :=
    Py.sum (map (fun p => Z.div (Py.get p PROPERTY_PRICES 0) 2)
                (set_iter (mortgaged player))) in
  let available_debt := max_debt - current_debt in
  Some (cash player + available_debt - absolute_min_cash ai).

(** [max_bid] after [max_bid = min(max_bid, affordable)]. *)
Definition auction_ceiling (ai : StrategicAI) (state : GameState)
    (position price : Z) : option Z :=
  max_bid ← premium_max_bid ai state position price;
  affordable ← affordable_bid ai (my_state state);
  Some (Z.min max_bid affordable).

Definition get_auction_bid (ai : StrategicAI) (state : GameState)
    (position current_bid : Z) : option Z :=
  let price := Py.get position PROPERTY_PRICES 100 in
  max_bid ← auction_ceiling ai state position price;
  if max_bid <=? current_bid then Some 0
  else
    let bid := current_bid + 10 in
    Some (Z.min bid max_bid).

(** ** Trade evaluation *)

(** The search for the proposing opponent: first match wins. *)
Fixpoint find_proposer (from : string) (opps : list PlayerState) : option PlayerState :=
  match opps with
  | [] => None
  | opp :: rest =>
      if String.eqb (player_id opp) from then Some opp
      else find_proposer from rest
  end.

(** The tail of [evaluate_trade] below the comment TRADE QUALITY FILTER,
    as a function of the locals it reads. *)
Definition trade_quality_filter (ai : StrategicAI)
    (our_quality their_quality : float)
    (we_gain_monopoly they_gain_monopoly : bool) (net_cash : Z) : bool :=
  if Py.gt their_quality (our_quality * max_quality_ratio ai)%float then false
  else if Py.ge our_quality (their_quality * min_quality_ratio ai)%float then true
  else if they_gain_monopoly && negb we_gain_monopoly then 200 <? net_cash
  else true.

Definition evaluate_trade (ai : StrategicAI) (state : GameState)
    (offer : TradeOffer) : bool :=
  let player := my_state state in
  let my_props_after :=
    (properties player ∖ properties_requested offer) ∪ properties_offered offer in
  let my_cash_after := cash player + cash_offered offer - cash_requested offer in
  if my_cash_after <? absolute_min_cash ai then false
  else
    match find_proposer (from_player offer) (opponents state) with
    | None => false
    | Some proposer =>
        let their_props_after :=
          (properties proposer ∖ properties_offered offer)
            ∪ properties_requested offer in
        let our_quality := get_monopoly_quality my_props_after in
        let their_quality := get_monopoly_quality their_props_after in
        let our_quality_before := get_monopoly_quality (properties player) in
        let their_quality_before := get_monopoly_quality (properties proposer) in
        let we_gain_monopoly := Py.gt our_quality our_quality_before in
        let they_gain_monopoly := Py.gt their_quality their_quality_before in
        let net_cash := cash_offered offer - cash_requested offer in
        if negb we_gain_monopoly && negb they_gain_monopoly then
          let n := Z.of_nat (length (opponents state)) in
          let ept_before := calculate_ept set_iter (properties player) n in
          let ept_after := calculate_ept built_iter my_props_after n in
          Py.gt ept_after ept_before
          || ((ept_after =? ept_before)%float && (0 <? net_cash))
        else
          trade_quality_filter ai our_quality their_quality
            we_gain_monopoly they_gain_monopoly net_cash
    end.

(** ** Trade proposals *)

(** The offer built for giving [give] and asking [want] of [opp], cash
    adjusted by the difference of the face values. *)
Definition swap_offer (player opp : PlayerState) (give want : Z) : TradeOffer :=
  let our_value := Py.get give PROPERTY_PRICES 0 in
  let their_value := Py.get want PROPERTY_PRICES 0 in
  let diff := their_value - our_value in
  {| from_player := player_id player;
     to_player := player_id opp;
     properties_offered := {[give]};
     properties_requested := {[want]};
     cash_offered := if 0 <? diff then diff else 0;
     cash_requested := if 0 <? diff then 0 else - diff |}.

(** [reverse_offer]: the same swap as the opponent would propose it. *)
Definition reverse_offer (offer : TradeOffer) : TradeOffer :=
  {| from_player := to_player offer;
     to_player := from_player offer;
     properties_offered := properties_requested offer;
     properties_requested := properties_offered offer;
     cash_offered := cash_requested offer;
     cash_requested := cash_offered offer |}.

Definition generate_trade_offers (ai : StrategicAI) (state : GameState) : list TradeOffer :=
  let player := my_state state in
  flat_map
    (fun gp : string * list Z =>
       let positions := snd gp in
       let owned_in_group := filter (fun p => p ∈ properties player) positions in
       let needed := filter (fun p => p ∉ properties player) positions in
       if (length owned_in_group =? 0)%nat || (length needed =? 0)%nat then []
       else
         flat_map
           (fun needed_pos =>
              flat_map
                (fun opp =>
                   if bool_decide (needed_pos ∈ properties opp) then
                     flat_map
                       (fun tgp : string * list Z =>
                          let their_positions := snd tgp in
                          let their_owned :=
                            filter (fun p => p ∈ properties opp) their_positions in
                          let their_needed :=
                            filter (fun p => p ∈ properties player) their_positions in
                          match their_owned, their_needed with
                          | _ :: _, give :: _ =>
                              let offer := swap_offer player opp give needed_pos in
                              if evaluate_trade ai state (reverse_offer offer)
                              then [offer] else []
                          | _, _ => []
                          end)
                       GROUP_PROPERTIES
                   else [])
                (opponents state))
           needed)
    GROUP_PROPERTIES.

(** ** Mortgaging *)

(** One dict appended to [mortgageable]; ['has_monopoly'] is [None] when
    the position has no group ([group and ...]). *)
Record MortgageEntry := {
  me_position : Z;
  me_value : Z;
  me_has_monopoly : option bool;
  me_group_quality : float
}.

Definition mortgage_entry (player : PlayerState) (pos : Z) : MortgageEntry :=
  let group := Py.lookup pos POSITION_TO_GROUP in
  {| me_position := pos;
     me_value := Z.div (Py.get pos PROPERTY_PRICES 0) 2;
     me_has_monopoly :=
       match group with
       | Some _ => Some (has_monopoly (properties player) group)
       | None => None
       end;
     me_group_quality :=
       match group with
       | Some g => Py.get g GROUP_QUALITY 1.0%float
       | None => 0%float
       end |}.

(** [<] on the sort keys [(has_monopoly, group_quality)]: tuples compare
    at the first component that differs; [None] against a [bool] is a
    TypeError. *)
Definition key_lt (a b : MortgageEntry) : option bool :=
  match me_has_monopoly a, me_has_monopoly b with
  | None, None => Some (me_group_quality a <? me_group_quality b)%float
  | Some x, Some y =>
      if Bool.eqb x y then Some (me_group_quality a <? me_group_quality b)%float
      else Some (negb x && y)
  | _, _ => None
  end.

(** [list.sort(key=...)]: the stable sort, failing when two keys cannot
    be compared. *)
Fixpoint sort_insert (x : MortgageEntry) (l : list MortgageEntry) : option (list MortgageEntry) :=
  match l with
  | [] => Some [x]
  | y :: l' =>
      lt ← key_lt y x;
      if lt : bool
      then r ← sort_insert x l'; Some (y :: r)
      else Some (x :: y :: l')
  end.

Fixpoint sort_by_key (l : list MortgageEntry) : option (list MortgageEntry) :=
  match l with
  | [] => Some []
  | x :: l' => s ← sort_by_key l'; sort_insert x s
  end.

(** The selection loop of [get_mortgage_decision]. *)
Fixpoint mortgage_select (amount_needed : Z) (l : list MortgageEntry) (raised : Z) : list Z :=
  match l with
  | [] => []
  | prop :: rest =>
      if amount_needed <=? raised then []
      else me_position prop :: mortgage_select amount_needed rest (raised + me_value prop)
  end.

Definition mortgageable (player : PlayerState) : list MortgageEntry :=
  map (mortgage_entry player)
      (filter (fun pos => (pos ∉ mortgaged player) ∧
                          ¬ (0 < houses_get (houses player) pos))
              (set_iter (properties player))).

Definition get_mortgage_decision (state : GameState) (amount_needed : Z) : option (list Z) :=
  let player := my_state state in
  sorted ← sort_by_key (mortgageable player);
  Some (mortgage_select amount_needed sorted 0).

End Engine.

(** ** Building *)

Definition should_build_house (ai : StrategicAI) (state : GameState) (position : Z) : bool :=
  let player := my_state state in
  match Py.lookup position POSITION_TO_GROUP with
  | None => false
  | Some group =>
      if bool_decide (group ∈ ["railroad"; "utility"]) then false
      else if negb (has_monopoly (properties player) (Some group)) then false
      else if available_houses state <=? 0 then false
      else
        let house_cost := Py.get group HOUSE_COST 100 in
        if cash player - house_cost <? absolute_min_cash ai + 50 then false
        else
          let houses_in_group :=
            map (houses_get (houses player)) (Py.get group GROUP_PROPERTIES []) in
          let current_houses := houses_get (houses player) position in
          if Py.min_list houses_in_group <? current_houses then false
          else if 4 <=? current_houses then false
          else true
  end.

Definition priority_groups : list string :=
  ["orange"; "red"; "darkBlue"; "yellow"; "green"; "pink"; "lightBlue"; "brown"].

Definition get_building_priority (ai : StrategicAI) (state : GameState) : list Z :=
  flat_map
    (fun group =>
       if negb (has_monopoly (properties (my_state state)) (Some group)) then []
       else filter (fun pos => should_build_house ai state pos = true)
                   (Py.get group GROUP_PROPERTIES []))
    priority_groups.

(** ** What the specification says, in its own words *)

(** Acquiring [position] would complete a group for [owner]: every member
    of [group] is then held. *)
Definition would_complete (owner : PlayerState) (position : Z) (group : option string) : bool :=
  bool_decide (Forall (fun p => p ∈ properties owner ∨ p = position)
                      (get_group_properties group)).

(** The acting player is the only one who can keep [opp] from the group:
    no other opponent holds one of its members without holding [position]. *)
Definition sole_blocker (state : GameState) (opp : PlayerState)
    (position : Z) (group : option string) : bool :=
  forallb
    (fun o => bool_decide (o = opp)
              || bool_decide (position ∈ properties o)
              || forallb (fun p => bool_decide (p ∉ properties o))
                         (get_group_properties group))
    (opponents state).

(** Some opponent is one acquisition short of a group, and the blocking
    rule (sole blocker when smart blocking is on) tells to stop them. *)
Definition must_block (smart : bool) (state : GameState)
    (position : Z) (group : option string) : bool :=
  existsb
    (fun opp => would_complete opp position group
                && (negb smart || sole_blocker state opp position group))
    (opponents state).

(** Section 4.3, five branches, the first that applies decides. *)
Definition spec_should_buy (smart : bool) (state : GameState) (position price : Z) : bool :=
  let group := Py.lookup position POSITION_TO_GROUP in
  let left := cash (my_state state) - price in
  if left <? 75 then false
  else if bool_decide (group = None) then true
  else if would_complete (my_state state) position group then true
  else if must_block smart state position group then true
  else 75 + 100 <=? left.

(** No position is held by two different players of the snapshot. *)
Definition consistent_ownership (state : GameState) : Prop :=
  (∀ opp, opp ∈ opponents state → properties (my_state state) ## properties opp) ∧
  (∀ o1 o2, o1 ∈ opponents state → o2 ∈ opponents state → o1 ≠ o2 →
            properties o1 ## properties o2).

(** Section 4.7: the conditions of buildability that do not concern the
    bank's inventory or the cap on the house count. *)
Definition spec_build_common (state : GameState) (position : Z) (group : string) : bool :=
  let player := my_state state in
  let count := houses_get (houses player) position in
  negb (bool_decide (group = "railroad")) && negb (bool_decide (group = "utility"))
  && bool_decide (list_to_set (get_group_properties (Some group)) ⊆ properties player)
  && (75 + 50 <=? cash player - Py.get group HOUSE_COST 100)
  && forallb (fun p => count <=? houses_get (houses player) p)
             (get_group_properties (Some group)).

(** Buildable as section 4.7 words it: inventory nonzero, count below 5. *)
Definition spec_buildable_claimed (state : GameState) (position : Z) : bool :=
  match Py.lookup position POSITION_TO_GROUP with
  | None => false
  | Some group =>
      spec_build_common state position group
      && negb (available_houses state =? 0)
      && (houses_get (houses (my_state state)) position <? 5)
  end.

(** Buildable as the code has it: inventory positive, count below 4. *)
Definition spec_buildable (state : GameState) (position : Z) : bool :=
  match Py.lookup position POSITION_TO_GROUP with
  | None => false
  | Some group =>
      spec_build_common state position group
      && (0 <? available_houses state)
      && (houses_get (houses (my_state state)) position <? 4)
  end.

(** A brown monopoly with four houses on each lot and cash to spare. *)
Definition brown_four_houses : GameState :=
  GameState_new
    {| player_id := "me"; cash := 1000; properties := {[1; 3]}; position := 0;
       in_jail := false; mortgaged := ∅; houses := {[1 := 4; 3 := 4]} |}
    [] "me".

(** The state of test_purchase_decision and test_auction_bidding. *)
Definition orange_seeker (c : Z) : PlayerState := PlayerState_new "me" c {[16; 18]}.
Definition red_holder : PlayerState := PlayerState_new "opp" 500 {[21; 23]}.
Definition purchase_state (c : Z) : GameState :=
  GameState_new (orange_seeker c) [red_holder] "me".

(** Whether the blocking loop of [get_auction_bid] raises the bid: it is
    decided at the first opponent the position would complete a group for. *)
Fixpoint blocking_raise (ai : StrategicAI) (state : GameState) (position : Z)
    (group : option string) (opps : list PlayerState) : bool :=
  match opps with
  | [] => false
  | opp :: rest =>
      if has_monopoly (properties opp ∪ {[position]}) group
      then negb (smart_blocking ai)
           || (other_blockers state opp position (get_group_properties group) =? 0)
      else blocking_raise ai state position group rest
  end.

(** The premiums of section 4.4 on a face value: 5% on top, then 50% for
    completing the bidder's own group, then 30% for blocking; every
    product is cut to an integer, as the code does with [int(...)]. *)
Definition premium_steps (own block : bool) (price : Z) : option Z :=
  base ← Py.int_mul price 1.05;
  raised ← (if own then Py.int_mul base 1.5 else Some base);
  if block then Py.int_mul raised 1.3 else Some raised.

(** The face values for which monotonicity of the ceiling is established
    (the table's prices lie between 60 and 400). *)
Definition PRICE_BOUND : Z := 1000.

(** [premium_steps] does not decrease from [p] to [p + 1], for the [n]
    prices from [p] on. *)
Fixpoint premium_steps_rising (own block : bool) (p : Z) (n : nat) : bool :=
  match n with
  | O => true
  | S n' =>
      match premium_steps own block p, premium_steps own block (p + 1) with
      | Some a, Some b => (a <=? b) && premium_steps_rising own block (p + 1) n'
      | _, _ => false
      end
  end.




Section AuctionSpec.

Variable set_iter : gset Z → list Z.

(** Half the face value of every mortgaged property. *)
Definition outstanding_mortgage_debt (player : PlayerState) : Z :=
  Py.sum (map (fun p => Z.div (Py.get p PROPERTY_PRICES 0) 2)
              (set_iter (mortgaged player))).





End AuctionSpec.

(** What one owned position adds to the net worth. *)
Definition property_worth (player : PlayerState) (pos : Z) : Z :=
  let price := Py.get pos PROPERTY_PRICES 0 in
  if bool_decide (pos ∈ mortgaged player) then Z.div price 2
  else
    price +
    match Py.lookup pos POSITION_TO_GROUP with
    | Some group =>
        let n := houses_get (houses player) pos in
        if 0 <? n then n * Py.get group HOUSE_COST 100 else 0
    | None => 0
    end.

(** The quality sum of [get_monopoly_quality] as a function of which
    groups are complete ([mask], in table order). *)
Fixpoint quality_of_mask (mask : list bool) (groups : list (string * list Z))
    (quality : float) : float :=
  match mask, groups with
  | b :: mask', gp :: groups' =>
      quality_of_mask mask' groups'
        (if b then (quality + Py.get (fst gp) GROUP_QUALITY 1.0)%float
         else quality)
  | _, _ => quality
  end.

Fixpoint all_masks (n : nat) : list (list bool) :=
  match n with
  | O => [[]]
  | S n' => flat_map (fun m => [true :: m; false :: m]) (all_masks n')
  end.



(** Section 4.6 as worded: the difference of the face values goes to the
    side that gives the cheaper property ([give] is the proposer's). *)
Definition cash_toward_cheaper_side (offer : TradeOffer) (give want : Z) : Prop :=
  let given := Py.get give PROPERTY_PRICES 0 in
  let wanted := Py.get want PROPERTY_PRICES 0 in
  (given < wanted → cash_requested offer = wanted - given ∧ cash_offered offer = 0) ∧
  (wanted < given → cash_offered offer = given - wanted ∧ cash_requested offer = 0) ∧
  (given = wanted → cash_offered offer = 0 ∧ cash_requested offer = 0).

(** As the code has it: the difference goes to the side that gives the
    dearer property, paid by the side that gives the cheaper one. *)
Definition cash_toward_dearer_side (offer : TradeOffer) (give want : Z) : Prop :=
  let given := Py.get give PROPERTY_PRICES 0 in
  let wanted := Py.get want PROPERTY_PRICES 0 in
  cash_offered offer = Z.max 0 (wanted - given) ∧
  cash_requested offer = Z.max 0 (given - wanted).

(** Two players each one lot short: orange against red. *)
Definition orange_red_me : PlayerState := PlayerState_new "me" 500 {[16; 18; 21]}.
Definition orange_red_opp : PlayerState := PlayerState_new "opp" 500 {[19; 23; 24]}.
Definition orange_red_state : GameState :=
  GameState_new orange_red_me [orange_red_opp] "me".

(** Section 4.9: the pair a candidate is ranked by, (its group is held
    in full, its group's quality), and the order on such pairs:
    a non-monopoly before a monopoly, then the lower quality first. *)
Definition mortgage_rank (player : PlayerState) (pos : Z) : bool * float :=
  let group := Py.lookup pos POSITION_TO_GROUP in
  (has_monopoly (properties player) group, get_group_quality group).

Definition rank_leb (r1 r2 : bool * float) : bool :=
  (negb (fst r1) && fst r2)
  || (Bool.eqb (fst r1) (fst r2) && (snd r1 <=? snd r2)%float).

(** [<] on the sort keys of two positions that both have a group. *)
Definition rank_ltb (r1 r2 : bool * float) : bool :=
  if Bool.eqb (fst r1) (fst r2) then (snd r1 <? snd r2)%float
  else negb (fst r1) && fst r2.

(** The ranks that can occur: either flag with a quality of the table or
    the default quality. *)
Definition rank_values : list (bool * float) :=
  list_prod [false; true] (1.0%float :: map snd GROUP_QUALITY).

Definition entry_rank (e : MortgageEntry) : bool * float :=
  (default false (me_has_monopoly e), me_group_quality e).

(** Half the face value, what mortgaging a position raises. *)
Definition mortgage_value (pos : Z) : Z := Z.div (Py.get pos PROPERTY_PRICES 0) 2.

Definition total_mortgage_value (ps : list Z) : Z :=
  foldr (fun p acc => mortgage_value p + acc) 0 ps.

(** Orange held in full, one lot of brown, a railroad and Boardwalk. *)
Definition mortgage_state : GameState :=
  GameState_new (PlayerState_new "me" 1000 {[16; 18; 19; 1; 5; 39]})
                [PlayerState_new "opp" 500 ∅] "me".

(** A player short of the reserve, alone at the table. *)
Definition short_of_reserve : GameState :=
  GameState_new (PlayerState_new "me" 50 ∅) [] "me".

(** * Properties *)

(** ** Lookups in the tables *)

Lemma lookup_Some_elem_of {K V : Type} `{EqDecision K} (k : K) (v : V) d :
  Py.lookup k d = Some v → (k, v) ∈ d.
Proof.
  induction d as [|[k' v'] d IH]; simpl; [discriminate|].
  destruct (decide (k = k')) as [->|Hne].
  - intros [= ->]. apply list_elem_of_here.
  - intros H'. apply list_elem_of_further, IH, H'.
Qed.

Lemma get_group_properties_Some g :
  get_group_properties (Some g) = Py.get g GROUP_PROPERTIES [].
Proof. reflexivity. Qed.

Lemma has_monopoly_spec owned group :
  has_monopoly owned group = true ↔
  ∀ p, p ∈ get_group_properties group → p ∈ owned.
Proof.
  unfold has_monopoly. rewrite forallb_forall. split.
  - intros H p Hp. apply list_elem_of_In in Hp. apply H in Hp.
    by apply bool_decide_eq_true in Hp.
  - intros H p Hp. apply bool_decide_eq_true, H, list_elem_of_In, Hp.
Qed.

Lemma would_complete_has_monopoly owner position group :
  would_complete owner position group
  = has_monopoly (properties owner ∪ {[position]}) group.
Proof.
  apply eq_true_iff_eq. unfold would_complete.
  rewrite bool_decide_eq_true, has_monopoly_spec, Forall_forall.
  split; intros H p Hp; specialize (H p Hp); set_solver.
Qed.

Lemma other_blockers_nil state opp position :
  other_blockers state opp position [] = 0.
Proof.
  unfold other_blockers.
  induction (opponents state) as [|o l IH]; [done|].
  rewrite filter_cons_False; [exact IH|]. simpl. intros (_ & _ & ?). discriminate.
Qed.

(** C10: has_monopoly(S, g) is vacuously true for every g that is not a
    key of GROUP_PROPERTIES, the no-group value None included; hence at a
    position without a group every opponent passes the completion test of
    get_auction_bid's blocking loop, and the loop applies the 30% raise at
    its first opponent. *)
Theorem has_monopoly_unknown_group_vacuous :
  (∀ (S : gset Z) (g : option string),
     Py.lookup_o g GROUP_PROPERTIES = None → has_monopoly S g = true) ∧
  (∀ (S : gset Z), has_monopoly S None = true) ∧
  (∀ (position : Z) (opp : PlayerState),
     Py.lookup position POSITION_TO_GROUP = None →
     has_monopoly (properties opp ∪ {[position]})
                  (Py.lookup position POSITION_TO_GROUP) = true) ∧
  (∀ (ai : StrategicAI) (state : GameState) (position : Z)
     (opp : PlayerState) (rest : list PlayerState) (max_bid : Z),
     Py.lookup position POSITION_TO_GROUP = None →
     auction_blocking_loop ai state position
       (Py.lookup position POSITION_TO_GROUP) (opp :: rest) max_bid
     = Py.int_mul max_bid 1.3).
Proof.
  assert (Hvac : ∀ (S : gset Z) g,
            Py.lookup_o g GROUP_PROPERTIES = None → has_monopoly S g = true).
  { intros S g Hg. unfold has_monopoly, get_group_properties, Py.get_o.
    rewrite Hg. reflexivity. }
  split; [|split; [|split]].
  - exact Hvac.
  - intros S. by apply Hvac.
  - intros position opp ->. by apply Hvac.
  - intros ai state position opp rest max_bid ->.
    cbn [auction_blocking_loop]. rewrite (Hvac _ None eq_refl).
    change (get_group_properties None) with (@nil Z).
    rewrite other_blockers_nil. by destruct (smart_blocking ai).
Qed.

(** ** Monopoly quality *)

Definition owns_all (S : gset Z) (ps : list Z) : bool :=
  forallb (fun pos => bool_decide (pos ∈ S)) ps.

Lemma owns_all_spec S ps : owns_all S ps = true ↔ list_to_set ps ⊆ S.
Proof.
  unfold owns_all. rewrite forallb_forall. split.
  - intros H p Hp. apply elem_of_list_to_set, list_elem_of_In in Hp.
    apply H in Hp. by apply bool_decide_eq_true in Hp.
  - intros H p Hp. apply bool_decide_eq_true, H, elem_of_list_to_set, list_elem_of_In, Hp.
Qed.

Lemma get_monopoly_quality_ext (S S' : gset Z) :
  Forall (fun gp => owns_all S (snd gp) = owns_all S' (snd gp)) GROUP_PROPERTIES →
  get_monopoly_quality S = get_monopoly_quality S'.
Proof.
  unfold get_monopoly_quality. generalize 0%float.
  induction GROUP_PROPERTIES as [|gp l IH]; intros q H; [done|].
  apply Forall_cons in H as [Hgp Hl]. simpl.
  fold (owns_all S (snd gp)). fold (owns_all S' (snd gp)).
  rewrite Hgp. by apply IH.
Qed.

(** The member lists of two different groups share no position, and no
    group is empty. *)
Lemma groups_disjoint :
  Forall (fun gp => Forall (fun hq => gp ≠ hq →
            Forall (fun p => p ∉ snd gp) (snd hq)) GROUP_PROPERTIES)
         GROUP_PROPERTIES.
Proof. compute_done. Qed.

Lemma groups_nonempty : Forall (fun gp => snd gp ≠ []) GROUP_PROPERTIES.
Proof. compute_done. Qed.

Lemma owns_all_difference (S : gset Z) (ps qs : list Z) :
  Forall (fun p => p ∉ ps) qs →
  owns_all (S ∖ list_to_set ps) qs = owns_all S qs.
Proof.
  intros H. apply eq_true_iff_eq. rewrite !owns_all_spec.
  rewrite Forall_forall in H.
  split; intros Hs p Hp.
  - specialize (Hs p Hp). set_solver.
  - apply elem_of_difference. split; [by apply Hs|].
    rewrite elem_of_list_to_set. apply H. by apply elem_of_list_to_set in Hp.
Qed.

(** C5: monopoly quality is additive over the property sets of two
    different groups (which share no position), is 0 on the empty set,
    is unchanged by the positions of a group that is only partially
    owned, and equals 0.85 on {1,3}, 1.30 on {31,32,34} and 2.15 on their
    union. *)
Theorem monopoly_quality_additive :
  (∀ g1 ps1 g2 ps2,
     (g1, ps1) ∈ GROUP_PROPERTIES → (g2, ps2) ∈ GROUP_PROPERTIES → g1 ≠ g2 →
     (list_to_set ps1 : gset Z) ## list_to_set ps2 ∧
     get_monopoly_quality (list_to_set ps1 ∪ list_to_set ps2)
     = (get_monopoly_quality (list_to_set ps1)
        + get_monopoly_quality (list_to_set ps2))%float) ∧
  get_monopoly_quality ∅ = 0%float ∧
  (∀ (S : gset Z) g ps,
     (g, ps) ∈ GROUP_PROPERTIES → ¬ (list_to_set ps ⊆ S) →
     get_monopoly_quality (S ∖ list_to_set ps) = get_monopoly_quality S) ∧
  get_monopoly_quality {[1; 3]} = 0.85%float ∧
  get_monopoly_quality {[31; 32; 34]} = 1.30%float ∧
  get_monopoly_quality ({[1; 3]} ∪ {[31; 32; 34]}) = 2.15%float.
Proof.
  split; [|split; [|split; [|split; [|split]]]].
  - intros g1 ps1 g2 ps2 H1 H2 Hne.
    apply list_elem_of_In in H1, H2. simpl in H1, H2.
    repeat (destruct H1 as [H1|H1]; [|]); try contradiction;
      injection H1 as <- <-;
      repeat (destruct H2 as [H2|H2]; [|]); try contradiction;
      injection H2 as <- <-;
      try (exfalso; apply Hne; reflexivity);
      (split; [compute_done | by vm_compute]).
  - by vm_compute.
  - intros S g ps Hin Hpart. apply get_monopoly_quality_ext.
    pose proof groups_disjoint as Hd. pose proof groups_nonempty as Hn.
    rewrite Forall_forall in Hd. specialize (Hd _ Hin).
    rewrite Forall_forall in Hd, Hn. specialize (Hn _ Hin).
    apply Forall_forall. intros [h qs] Hh. simpl in *.
    destruct (decide ((g, ps) = (h, qs))) as [[= <- <-]|Hneq].
    + assert (Hf : owns_all S ps = false).
      { apply not_true_is_false. by rewrite owns_all_spec. }
      rewrite Hf. apply not_true_is_false. rewrite owns_all_spec.
      intros Hs. destruct ps as [|p ps]; [done|].
      assert (p ∈ S ∖ list_to_set (p :: ps)) by (apply Hs; set_solver).
      set_solver.
    + apply owns_all_difference. by apply (Hd (h, qs)).
  - by vm_compute.
  - by vm_compute.
  - by vm_compute.
Qed.

(** ** Purchase decision *)

Lemma sum_ones_acc {A : Type} (l : list A) (a : Z) :
  fold_left Z.add (map (fun _ => 1) l) a = a + Z.of_nat (length l).
Proof.
  revert a. induction l as [|x l IH]; intros a; simpl fold_left; simpl length.
  - lia.
  - rewrite IH. lia.
Qed.

Lemma sum_ones {A : Type} (l : list A) :
  Py.sum (map (fun _ => 1) l) = Z.of_nat (length l).
Proof. unfold Py.sum. rewrite sum_ones_acc. lia. Qed.

(** The count of other blockers is zero exactly for a sole blocker. *)
Lemma other_blockers_zero state opp position group :
  (other_blockers state opp position (get_group_properties group) =? 0)
  = sole_blocker state opp position group.
Proof.
  unfold other_blockers, sole_blocker. rewrite sum_ones.
  induction (opponents state) as [|o l IH]; [done|].
  cbn [forallb]. rewrite <- IH. clear IH.
  set (gprops := get_group_properties group).
  destruct (decide (o = opp)) as [->|Hne].
  { rewrite filter_cons_False by (intros [? _]; done).
    by rewrite bool_decide_eq_true_2. }
  rewrite (bool_decide_eq_false_2 (o = opp)) by done.
  destruct (decide (position ∈ properties o)) as [Hin|Hnin].
  { rewrite filter_cons_False by (intros (_ & ? & _); done).
    by rewrite (bool_decide_eq_true_2 _ Hin). }
  rewrite (bool_decide_eq_false_2 _ Hnin). cbn [orb].
  destruct (existsb (fun p => bool_decide (p ∈ properties o)) gprops) eqn:Hex.
  - rewrite filter_cons_True by done.
    assert (Hfa : forallb (fun p => bool_decide (p ∉ properties o)) gprops = false).
    { apply not_true_is_false. rewrite forallb_forall. intros Hall.
      apply existsb_exists in Hex as (p & Hp & Hpo).
      apply Hall in Hp. apply bool_decide_eq_true in Hp, Hpo. done. }
    rewrite Hfa. cbn [length andb]. apply Z.eqb_neq. lia.
  - rewrite filter_cons_False by (intros (_ & _ & ?); congruence).
    assert (Hfa : forallb (fun p => bool_decide (p ∉ properties o)) gprops = true).
    { apply forallb_forall. intros p Hp. apply bool_decide_eq_true. intros Hpo.
      apply not_true_iff_false in Hex. apply Hex, existsb_exists.
      exists p. split; [done|]. by apply bool_decide_eq_true. }
    by rewrite Hfa.
Qed.

(** The blocking loop returns True exactly when some opponent must be
    blocked, and otherwise runs to its end. *)
Lemma buy_blocking_loop_spec smart state position group opps :
  buy_blocking_loop (with_smart_blocking smart StrategicAI_init)
    state position group opps
  = if existsb
         (fun opp => would_complete opp position (Some group)
                     && (negb smart || sole_blocker state opp position (Some group)))
         opps
    then Some true else None.
Proof.
  induction opps as [|opp rest IH]; [done|].
  cbn [buy_blocking_loop existsb]. rewrite IH. clear IH.
  rewrite <- would_complete_has_monopoly.
  destruct (would_complete opp position (Some group)); [|done].
  cbn [andb smart_blocking with_smart_blocking].
  destruct smart; [|done]. cbn [negb orb].
  rewrite <- get_group_properties_Some, other_blockers_zero.
  by destruct (sole_blocker state opp position (Some group)).
Qed.

Lemma should_buy_property_spec smart state position price :
  should_buy_property (with_smart_blocking smart StrategicAI_init)
    state position price
  = spec_should_buy smart state position price.
Proof.
  unfold should_buy_property, spec_should_buy, must_block.
  cbn [absolute_min_cash with_smart_blocking StrategicAI_init].
  destruct (cash (my_state state) - price <? 75); [done|].
  destruct (Py.lookup position POSITION_TO_GROUP) as [group|]; [|done].
  rewrite bool_decide_eq_false_2 by done.
  rewrite <- would_complete_has_monopoly.
  destruct (would_complete (my_state state) position (Some group)); [done|].
  rewrite buy_blocking_loop_spec.
  by destruct (existsb _ (opponents state)).
Qed.

(** C2: should_buy_property decides by the five branches of section 4.3
    in their order (reserve 75, no group, own monopoly completed, opponent
    to be blocked, comfort buffer of 100), with smart blocking on or off;
    the player with cash 500 owning {16,18} buys position 19 at 200, and
    with cash 100 does not. *)
Theorem should_buy_property_branches :
  (∀ smart state position price,
     should_buy_property (with_smart_blocking smart StrategicAI_init)
       state position price
     = spec_should_buy smart state position price) ∧
  (∀ state,
     cash (my_state state) = 500 → properties (my_state state) = {[16; 18]} →
     should_buy_property StrategicAI_init state 19 200 = true) ∧
  (∀ state,
     cash (my_state state) = 100 → properties (my_state state) = {[16; 18]} →
     should_buy_property StrategicAI_init state 19 200 = false).
Proof.
  split; [exact should_buy_property_spec|].
  split; intros state Hc Hp; unfold should_buy_property; rewrite Hc, ?Hp;
    by vm_compute.
Qed.

Lemma buy_blocking_loop_with_cash ai c state position group opps :
  buy_blocking_loop ai (with_cash c state) position group opps
  = buy_blocking_loop ai state position group opps.
Proof.
  induction opps as [|opp rest IH]; [done|].
  cbn [buy_blocking_loop]. by rewrite IH.
Qed.

(** C8: should_buy_property is monotonic in the acting player's cash:
    accepted at cash c, it is accepted at every larger cash, all else
    unchanged. *)
Theorem should_buy_property_monotonic_in_cash
    (ai : StrategicAI) (state : GameState) (position price c c' : Z) :
  c < c' →
  should_buy_property ai (with_cash c state) position price = true →
  should_buy_property ai (with_cash c' state) position price = true.
Proof.
  intros Hlt. unfold should_buy_property.
  cbn [my_state with_cash cash properties opponents].
  destruct (c - price <? absolute_min_cash ai) eqn:Hfloor; [discriminate|].
  apply Z.ltb_ge in Hfloor.
  assert (Hfloor' : (c' - price <? absolute_min_cash ai) = false)
    by (apply Z.ltb_ge; lia).
  rewrite Hfloor'.
  destruct (Py.lookup position POSITION_TO_GROUP) as [group|]; [|done].
  destruct (has_monopoly _ (Some group)); [done|].
  rewrite !buy_blocking_loop_with_cash.
  destruct (buy_blocking_loop ai state position group (opponents state)); [done|].
  intros Hbuf. apply Z.leb_le in Hbuf. apply Z.leb_le. lia.
Qed.

(** ** Building *)

Lemma min_list_acc_le (l : list Z) (a x : Z) :
  x <= fold_left Z.min l a ↔ x <= a ∧ Forall (fun y => x <= y) l.
Proof.
  revert a. induction l as [|y l IH]; intros a; simpl.
  - split; [intros H; split; [done|constructor] | by intros [H _]].
  - rewrite IH, Forall_cons, Z.min_glb_iff. tauto.
Qed.

Lemma min_list_le (l : list Z) (x : Z) :
  l ≠ [] → (x <= Py.min_list l ↔ Forall (fun y => x <= y) l).
Proof.
  destruct l as [|a l]; [done|]. intros _.
  unfold Py.min_list. by rewrite min_list_acc_le, Forall_cons.
Qed.

(** Every group a position maps to is a key of GROUP_PROPERTIES, with the
    position itself and at least one other member. *)
Lemma position_groups_known :
  Forall (fun pg =>
            fst pg ∈ Py.get (snd pg) GROUP_PROPERTIES []
            ∧ Exists (fun p => p ≠ fst pg) (Py.get (snd pg) GROUP_PROPERTIES []))
         POSITION_TO_GROUP.
Proof. compute_done. Qed.

Lemma should_build_house_spec state position :
  should_build_house StrategicAI_init state position = spec_buildable state position.
Proof.
  unfold should_build_house, spec_buildable, spec_build_common.
  destruct (Py.lookup position POSITION_TO_GROUP) as [group|] eqn:Hgroup; [|done].
  apply lookup_Some_elem_of in Hgroup.
  pose proof position_groups_known as Hknown.
  rewrite Forall_forall in Hknown. apply Hknown in Hgroup as [Hmem _].
  cbn [fst snd] in Hmem.
  rewrite get_group_properties_Some.
  set (members := Py.get group GROUP_PROPERTIES []) in *.
  cbn [absolute_min_cash StrategicAI_init].
  destruct (decide (group = "railroad")) as [->|Hrr]; [done|].
  destruct (decide (group = "utility")) as [->|Hut]; [done|].
  rewrite (bool_decide_eq_false_2 (group ∈ _)) by set_solver.
  rewrite !bool_decide_eq_false_2 by done. cbn [negb andb].
  assert (Hmono : has_monopoly (properties (my_state state)) (Some group)
            = bool_decide (list_to_set members ⊆ properties (my_state state))).
  { apply eq_true_iff_eq. rewrite bool_decide_eq_true.
    unfold has_monopoly. fold (owns_all (properties (my_state state))
                                 (get_group_properties (Some group))).
    by rewrite owns_all_spec. }
  rewrite Hmono. destruct (bool_decide (_ ⊆ _)); [|done]. cbn [negb andb].
  rewrite Z.leb_antisym.
  destruct (0 <? available_houses state);
    [|by rewrite !andb_false_r]. cbn [negb].
  rewrite (Z.ltb_antisym (75 + 50)).
  destruct (75 + 50 <=? _); [|done]. cbn [negb andb].
  set (count := houses_get (houses (my_state state)) position).
  assert (Heven : (Py.min_list (map (houses_get (houses (my_state state))) members)
                   <? count)
                  = negb (forallb (fun p => count <=? houses_get (houses (my_state state)) p)
                                  members)).
  { rewrite Z.ltb_antisym. f_equal. apply eq_true_iff_eq.
    rewrite Z.leb_le, min_list_le, forallb_forall, Forall_forall.
    - split.
      + intros H p Hp. apply Z.leb_le, H, list_elem_of_fmap.
        exists p. split; [done|]. by apply list_elem_of_In.
      + intros H y Hy. apply list_elem_of_fmap in Hy as (p & -> & Hp).
        apply Z.leb_le, H. by apply list_elem_of_In.
    - intros Hnil. apply fmap_nil_inv in Hnil. rewrite Hnil in Hmem.
      by apply not_elem_of_nil in Hmem. }
  rewrite Heven. destruct (forallb _ members); [|done]. cbn [negb andb].
  rewrite (Z.ltb_antisym 4). by destruct (4 <=? count).
Qed.

(** In the priority list every member of a group maps back to it. *)
Lemma priority_groups_members :
  Forall (fun g => Forall (fun p => Py.lookup p POSITION_TO_GROUP = Some g)
                          (Py.get g GROUP_PROPERTIES []))
         priority_groups.
Proof. compute_done. Qed.

(** C6, as the code has it: should_build_house holds exactly when the
    group is a colour group held in full, the bank has a house left, cash
    less the house cost keeps the reserve plus 50, the lot is not ahead
    of the least built lot of its group, and the lot carries fewer than 4
    houses; get_building_priority lists exactly those lots, group by
    group, in the order orange, red, dark blue, yellow, green, pink,
    light blue, brown. *)
Theorem should_build_house_iff_buildable :
  (∀ state position,
     should_build_house StrategicAI_init state position
     = spec_buildable state position) ∧
  (∀ state,
     get_building_priority StrategicAI_init state
     = flat_map
         (fun group =>
            filter (fun pos => spec_buildable state pos = true)
                   (get_group_properties (Some group)))
         ["orange"; "red"; "darkBlue"; "yellow"; "green"; "pink";
          "lightBlue"; "brown"]).
Proof.
  split; [exact should_build_house_spec|].
  intros state. unfold get_building_priority.
  change ["orange"; "red"; "darkBlue"; "yellow"; "green"; "pink";
          "lightBlue"; "brown"] with priority_groups.
  pose proof priority_groups_members as Hmem.
  induction priority_groups as [|g gs IH]; [done|].
  apply Forall_cons in Hmem as [Hg Hgs].
  cbn [flat_map]. rewrite (IH Hgs). f_equal. clear IH Hgs.
  rewrite get_group_properties_Some.
  destruct (has_monopoly (properties (my_state state)) (Some g)) eqn:Hmono;
    cbn [negb].
  - apply list_filter_iff. intros pos. by rewrite should_build_house_spec.
  - symmetry. induction Hg as [|p ps Hp _ IHps]; [done|].
    rewrite filter_cons_False; [exact IHps|].
    rewrite <- should_build_house_spec. unfold should_build_house.
    rewrite Hp, Hmono. cbn [negb]. by destruct (bool_decide (g ∈ _)).
Qed.

(** C6, as worded (count below 5), fails: with four houses on each brown
    lot every worded condition holds and should_build_house refuses. *)
Lemma should_build_house_refuses_fifth_house :
  spec_buildable_claimed brown_four_houses 1 = true ∧
  should_build_house StrategicAI_init brown_four_houses 1 = false.
Proof. split; by vm_compute. Qed.

(** ** Auction bidding *)

Lemma int_of_float_finite_premiums :
  (1 + base_bid_premium StrategicAI_init)%float = 1.05%float.
Proof. by vm_compute. Qed.

Lemma auction_blocking_loop_raise ai state position group opps max_bid :
  auction_blocking_loop ai state position group opps max_bid
  = if blocking_raise ai state position group opps
    then Py.int_mul max_bid 1.3 else Some max_bid.
Proof.
  induction opps as [|opp rest IH]; [done|].
  cbn [auction_blocking_loop blocking_raise].
  destruct (has_monopoly _ group); [|exact IH].
  destruct (smart_blocking ai); cbn [negb orb]; [|done].
  by destruct (_ =? 0).
Qed.





Lemma premium_max_bid_steps smart state position price :
  let ai := with_smart_blocking smart StrategicAI_init in
  let group := Py.lookup position POSITION_TO_GROUP in
  premium_max_bid ai state position price
  = premium_steps
      (bool_decide (is_Some group)
       && has_monopoly (properties (my_state state) ∪ {[position]}) group)
      (blocking_raise ai state position group (opponents state))
      price.
Proof.
  intros ai group. unfold premium_max_bid, premium_steps. fold group.
  change (1 + base_bid_premium ai)%float with 1.05%float.
  destruct (Py.int_mul price 1.05) as [base|]; [|done]. cbn [mbind option_bind].
  destruct (bool_decide (is_Some group) && _).
  - destruct (Py.int_mul base 1.5) as [raised|]; [|done]. cbn [mbind option_bind].
    apply auction_blocking_loop_raise.
  - cbn [mbind option_bind]. apply auction_blocking_loop_raise.
Qed.

Lemma premium_steps_rising_all :
  premium_steps_rising false false 0 (Z.to_nat PRICE_BOUND) = true ∧
  premium_steps_rising false true 0 (Z.to_nat PRICE_BOUND) = true ∧
  premium_steps_rising true false 0 (Z.to_nat PRICE_BOUND) = true ∧
  premium_steps_rising true true 0 (Z.to_nat PRICE_BOUND) = true.
Proof. split; [|split; [|split]]; vm_compute; reflexivity. Qed.

Section EngineProperties.

Variable set_iter : gset Z → list Z.
Hypothesis set_iter_perm : ∀ s, set_iter s ≡ₚ elements s.



Lemma fold_left_add_perm {A : Type} (f : A → Z) (l l' : list A) (a : Z) :
  l ≡ₚ l' →
  fold_left (fun w x => w + f x) l a = fold_left (fun w x => w + f x) l' a.
Proof.
  intros Hperm. revert a.
  induction Hperm as [|x l l' _ IH|x y l|l l' l'' _ IH1 _ IH2]; intros a; simpl.
  - done.
  - apply IH.
  - f_equal. lia.
  - by rewrite IH1.
Qed.

Lemma calculate_net_worth_sum iter player :
  calculate_net_worth iter player
  = fold_left (fun w pos => w + property_worth player pos)
              (iter (properties player)) (cash player).
Proof.
  unfold calculate_net_worth. generalize (cash player).
  induction (iter (properties player)) as [|pos l IH]; intros a; [done|].
  cbn [fold_left]. rewrite IH. f_equal. unfold property_worth.
  destruct (bool_decide (pos ∈ mortgaged player)); [done|].
  destruct (Py.lookup pos POSITION_TO_GROUP); [|lia].
  destruct (0 <? houses_get (houses player) pos); lia.
Qed.




Lemma premium_steps_rising_sound own block n : ∀ p,
  premium_steps_rising own block p n = true →
  ∀ q, p <= q < p + Z.of_nat n →
  ∃ a b, premium_steps own block q = Some a ∧
         premium_steps own block (q + 1) = Some b ∧ a <= b.
Proof.
  induction n as [|n IH]; intros p Hrise q Hq; [lia|].
  cbn [premium_steps_rising] in Hrise.
  destruct (premium_steps own block p) as [a|] eqn:Ha; [|discriminate].
  destruct (premium_steps own block (p + 1)) as [b|] eqn:Hb; [|discriminate].
  apply andb_true_iff in Hrise as [Hab Hrest]. apply Z.leb_le in Hab.
  destruct (decide (q = p)) as [->|Hne].
  - exists a, b. by rewrite Ha, Hb.
  - apply (IH (p + 1) Hrest). lia.
Qed.

Lemma premium_steps_rising_from_zero own block :
  premium_steps_rising own block 0 (Z.to_nat PRICE_BOUND) = true.
Proof.
  pose proof premium_steps_rising_all as (Hff & Hft & Htf & Htt).
  destruct own, block; assumption.
Qed.

(** On the face values up to PRICE_BOUND the premiums never fail and
    never decrease. *)
Lemma premium_steps_monotone own block p1 p2 :
  0 <= p1 → p1 <= p2 → p2 <= PRICE_BOUND →
  ∃ a1 a2, premium_steps own block p1 = Some a1 ∧
           premium_steps own block p2 = Some a2 ∧ a1 <= a2.
Proof.
  intros H0 H12 Hb.
  pose proof (premium_steps_rising_sound own block _ 0
                (premium_steps_rising_from_zero own block)) as Hstep.
  assert (Hbound : 0 + Z.of_nat (Z.to_nat PRICE_BOUND) = PRICE_BOUND)
    by (unfold PRICE_BOUND; lia).
  rewrite Hbound in Hstep. clear Hbound.
  assert (Htotal : ∀ p, 0 <= p <= PRICE_BOUND →
            ∃ a, premium_steps own block p = Some a).
  { intros p Hp. destruct (decide (p = PRICE_BOUND)) as [->|Hne].
    - destruct (Hstep (PRICE_BOUND - 1)) as (a & b & _ & Hb' & _).
      { unfold PRICE_BOUND. lia. }
      exists b. rewrite <- Hb'. f_equal; lia.
    - destruct (Hstep p) as (a & b & Ha & _); [lia|]. by exists a. }
  remember (Z.to_nat (p2 - p1)) as d eqn:Hd.
  revert p2 H12 Hb Hd. induction d as [|d IH]; intros p2 H12 Hb Hd.
  - assert (p2 = p1) as -> by lia.
    destruct (Htotal p1) as [a Ha]; [lia|]. exists a, a. by rewrite Ha.
  - destruct (IH (p2 - 1)) as (a1 & a & Ha1 & Ha & Hle); [lia..|].
    destruct (Hstep (p2 - 1)) as (a' & a2 & Ha' & Ha2 & Hle'); [lia|].
    replace (p2 - 1 + 1) with p2 in Ha2 by lia.
    rewrite Ha in Ha'. injection Ha' as <-.
    exists a1, a2. repeat split; [done..|lia].
Qed.

Lemma get_default_or_elem {K V : Type} `{EqDecision K} (k : K) (d : list (K * V)) (dflt : V) :
  Py.get k d dflt = dflt ∨ (k, Py.get k d dflt) ∈ d.
Proof.
  unfold Py.get. destruct (Py.lookup k d) as [v|] eqn:Hv; [|by left].
  right. by apply lookup_Some_elem_of.
Qed.

Lemma auction_price_bounded position :
  0 <= Py.get position PROPERTY_PRICES 100 <= PRICE_BOUND.
Proof.
  destruct (get_default_or_elem position PROPERTY_PRICES 100) as [->|Hin].
  { unfold PRICE_BOUND. lia. }
  assert (Hall : Forall (fun kv => 0 <= snd kv <= PRICE_BOUND) PROPERTY_PRICES)
    by compute_done.
  rewrite Forall_forall in Hall. exact (Hall _ Hin).
Qed.

Lemma auction_ceiling_steps smart state position price :
  let ai := with_smart_blocking smart StrategicAI_init in
  let group := Py.lookup position POSITION_TO_GROUP in
  auction_ceiling set_iter ai state position price
  = (max_bid ← premium_steps
        (bool_decide (is_Some group)
         && has_monopoly (properties (my_state state) ∪ {[position]}) group)
        (blocking_raise ai state position group (opponents state)) price;
     affordable ← affordable_bid set_iter ai (my_state state);
     Some (Z.min max_bid affordable)).
Proof.
  intros ai group. subst ai group. unfold auction_ceiling.
  by rewrite premium_max_bid_steps.
Qed.

(** C7, as the code has it: with the snapshot and the position (hence the
    premiums and the affordability clamp) held fixed, the ceiling does
    not decrease as the face value grows from 0 to PRICE_BOUND, a range
    that holds every tabulated price; it is defined on that range
    whenever the clamp is; and the value returned never exceeds the
    larger of 0 and the ceiling: a bid made (ceiling above the current
    bid) stays within the ceiling, while a pass returns 0 whatever the
    ceiling. *)
Theorem auction_ceiling_monotonic_bid_bounded smart state position :
  let ai := with_smart_blocking smart StrategicAI_init in
  (∀ p1 p2 c1 c2,
     0 <= p1 → p1 <= p2 → p2 <= PRICE_BOUND →
     auction_ceiling set_iter ai state position p1 = Some c1 →
     auction_ceiling set_iter ai state position p2 = Some c2 →
     c1 <= c2) ∧
  (∀ p, 0 <= p <= PRICE_BOUND →
     is_Some (affordable_bid set_iter ai (my_state state)) →
     is_Some (auction_ceiling set_iter ai state position p)) ∧
  0 <= Py.get position PROPERTY_PRICES 100 <= PRICE_BOUND ∧
  (∀ current_bid ceiling,
     auction_ceiling set_iter ai state position
       (Py.get position PROPERTY_PRICES 100) = Some ceiling →
     ∃ bid,
       get_auction_bid set_iter ai state position current_bid = Some bid ∧
       bid <= Z.max 0 ceiling ∧
       (current_bid < ceiling → bid <= ceiling)).
Proof.
  intros ai. split; [|split; [|split]].
  - intros p1 p2 c1 c2 H0 H12 Hb. unfold ai. rewrite !auction_ceiling_steps.
    set (own := bool_decide _ && _). set (block := blocking_raise _ _ _ _ _).
    destruct (premium_steps_monotone own block p1 p2 H0 H12 Hb)
      as (a1 & a2 & -> & -> & Hle).
    cbn [mbind option_bind].
    destruct (affordable_bid set_iter _ (my_state state)) as [aff|];
      cbn [mbind option_bind]; [|discriminate].
    intros [= <-] [= <-]. lia.
  - intros p Hp [aff Haff]. unfold ai. rewrite auction_ceiling_steps.
    set (own := bool_decide _ && _). set (block := blocking_raise _ _ _ _ _).
    destruct (premium_steps_monotone own block p p) as (a & _ & -> & _);
      [lia..|].
    fold ai. rewrite Haff. by eexists.
  - apply auction_price_bounded.
  - intros current_bid ceiling Hc. unfold get_auction_bid. rewrite Hc.
    cbn [mbind option_bind].
    destruct (ceiling <=? current_bid) eqn:Hpass.
    + exists 0. apply Z.leb_le in Hpass. repeat split; [lia..].
    + exists (Z.min (current_bid + 10) ceiling). repeat split; lia.
Qed.

End EngineProperties.

(** C7, as worded, fails: a bidder short of the reserve has a negative
    ceiling, and the 0 returned as a pass exceeds it. *)
Lemma pass_exceeds_negative_ceiling :
  auction_ceiling elements StrategicAI_init short_of_reserve 1
    (Py.get 1 PROPERTY_PRICES 100) = Some (-18) ∧
  get_auction_bid elements StrategicAI_init short_of_reserve 1 0 = Some 0 ∧
  ¬ (0 <= -18).
Proof. repeat split; [by vm_compute..|lia]. Qed.

(** ** Trade evaluation *)


Lemma get_monopoly_quality_mask (S : gset Z) :
  get_monopoly_quality S
  = quality_of_mask (map (fun gp => owns_all S (snd gp)) GROUP_PROPERTIES)
                    GROUP_PROPERTIES 0%float.
Proof.
  unfold get_monopoly_quality. generalize 0%float.
  induction GROUP_PROPERTIES as [|gp l IH]; intros q; [done|].
  cbn [fold_left map quality_of_mask]. apply IH.
Qed.

Lemma all_masks_complete (mask : list bool) :
  mask ∈ all_masks (length mask).
Proof.
  induction mask as [|b mask IH]; cbn [length all_masks].
  - apply list_elem_of_here.
  - apply list_elem_of_In, in_flat_map. exists mask.
    split; [by apply list_elem_of_In|].
    destruct b; [left|right; left]; reflexivity.
Qed.


Section TradeProperties.

Variable set_iter : gset Z → list Z.
Variable built_iter : gset Z → list Z.


End TradeProperties.

(** ** Trade proposals *)

Section ProposalProperties.

Variable set_iter : gset Z → list Z.
Variable built_iter : gset Z → list Z.

(** C4, as the code has it: every offer of generate_trade_offers gives
    one property of the acting player for one property of an opponent,
    carries as cash the difference of the two face values, paid by the
    side that gives the cheaper property to the side that gives the
    dearer one, and has a mirror (properties, cash and parties swapped)
    that evaluate_trade accepts for the acting player. *)
Theorem generate_trade_offers_sound ai state offer :
  offer ∈ generate_trade_offers set_iter built_iter ai state →
  ∃ opp give want,
    opp ∈ opponents state ∧
    give ∈ properties (my_state state) ∧
    want ∈ properties opp ∧ (want ∉ properties (my_state state)) ∧
    from_player offer = player_id (my_state state) ∧
    to_player offer = player_id opp ∧
    properties_offered offer = {[give]} ∧
    properties_requested offer = {[want]} ∧
    cash_toward_dearer_side offer give want ∧
    evaluate_trade set_iter built_iter ai state (reverse_offer offer) = true.
Proof.
  intros Hin. unfold generate_trade_offers in Hin.
  apply list_elem_of_In, in_flat_map in Hin as ([g positions] & _ & Hin).
  cbn [snd] in Hin. destruct (_ || _); [destruct Hin|].
  apply in_flat_map in Hin as (want & Hwant & Hin).
  apply in_flat_map in Hin as (opp & Hopp & Hin).
  destruct (bool_decide (want ∈ properties opp)) eqn:Hheld; [|destruct Hin].
  apply bool_decide_eq_true in Hheld.
  apply in_flat_map in Hin as ([tg tpositions] & _ & Hin). cbn [snd] in Hin.
  destruct (filter (fun p => p ∈ properties opp) tpositions); [destruct Hin|].
  destruct (filter (fun p => p ∈ properties (my_state state)) tpositions)
    as [|give rest] eqn:Hgive; [destruct Hin|].
  destruct (evaluate_trade set_iter built_iter ai state _) eqn:Heval; [|destruct Hin].
  destruct Hin as [<-|[]].
  assert (Hmine : give ∈ properties (my_state state)).
  { assert (Hf : give ∈ filter (fun p => p ∈ properties (my_state state)) tpositions)
      by (rewrite Hgive; left).
    by apply list_elem_of_filter in Hf as [? _]. }
  apply list_elem_of_In, list_elem_of_filter in Hwant as [Hnot _].
  exists opp, give, want. apply list_elem_of_In in Hopp.
  repeat split; try done.
  - cbn [swap_offer cash_offered]. destruct (0 <? _) eqn:Hd; lia.
  - cbn [swap_offer cash_requested]. destruct (0 <? _) eqn:Hd; lia.
Qed.

End ProposalProperties.

(** C4, as worded, fails on the direction of the cash: the acting player
    offers 21 (face 220) for 19 (face 200) and asks for the 20, so the
    difference goes to the side that gives the dearer property. *)
Lemma cash_goes_to_dearer_side :
  swap_offer orange_red_me orange_red_opp 21 19
    ∈ generate_trade_offers elements elements StrategicAI_init orange_red_state ∧
  ¬ cash_toward_cheaper_side (swap_offer orange_red_me orange_red_opp 21 19) 21 19.
Proof.
  split; [compute_done|].
  intros (_ & Hdear & _).
  assert (Hlt : Py.get 19 PROPERTY_PRICES 0 < Py.get 21 PROPERTY_PRICES 0)
    by (by vm_compute).
  destruct (Hdear Hlt) as [Hoff _]. vm_compute in Hoff. discriminate.
Qed.

(** ** Mortgaging *)

(** On the ranks that can occur, [<] and [<=] on the keys agree, and
    [<=] is total and transitive. *)
Lemma rank_order_facts :
  forallb (fun r1 =>
    forallb (fun r2 =>
      implb (rank_ltb r1 r2) (rank_leb r1 r2)
      && implb (negb (rank_ltb r1 r2)) (rank_leb r2 r1)
      && forallb (fun r3 =>
           implb (rank_leb r1 r2 && rank_leb r2 r3) (rank_leb r1 r3))
         rank_values)
    rank_values)
  rank_values = true.
Proof. vm_compute. reflexivity. Qed.

Lemma rank_lt_le r1 r2 :
  In r1 rank_values → In r2 rank_values →
  rank_ltb r1 r2 = true → rank_leb r1 r2 = true.
Proof.
  intros H1 H2 Hlt. pose proof rank_order_facts as Hf.
  rewrite forallb_forall in Hf. specialize (Hf r1 H1).
  rewrite forallb_forall in Hf. specialize (Hf r2 H2).
  apply andb_true_iff in Hf as [Hf _]. apply andb_true_iff in Hf as [Hf _].
  by rewrite Hlt in Hf.
Qed.

Lemma rank_not_lt_ge r1 r2 :
  In r1 rank_values → In r2 rank_values →
  rank_ltb r1 r2 = false → rank_leb r2 r1 = true.
Proof.
  intros H1 H2 Hlt. pose proof rank_order_facts as Hf.
  rewrite forallb_forall in Hf. specialize (Hf r1 H1).
  rewrite forallb_forall in Hf. specialize (Hf r2 H2).
  apply andb_true_iff in Hf as [Hf _]. apply andb_true_iff in Hf as [_ Hf].
  by rewrite Hlt in Hf.
Qed.

Lemma rank_le_trans r1 r2 r3 :
  In r1 rank_values → In r2 rank_values → In r3 rank_values →
  rank_leb r1 r2 = true → rank_leb r2 r3 = true → rank_leb r1 r3 = true.
Proof.
  intros H1 H2 H3 H12 H23. pose proof rank_order_facts as Hf.
  rewrite forallb_forall in Hf. specialize (Hf r1 H1).
  rewrite forallb_forall in Hf. specialize (Hf r2 H2).
  apply andb_true_iff in Hf as [_ Hf].
  rewrite forallb_forall in Hf. specialize (Hf r3 H3).
  by rewrite H12, H23 in Hf.
Qed.

(** An entry whose position has a group: its key is a pair of a bool
    and a quality of the table. *)
Definition ranked (e : MortgageEntry) : Prop :=
  is_Some (me_has_monopoly e) ∧ In (entry_rank e) rank_values.

Definition entry_le (a b : MortgageEntry) : Prop :=
  rank_leb (entry_rank a) (entry_rank b) = true.

Lemma key_lt_ranked a b :
  ranked a → ranked b →
  key_lt a b = Some (rank_ltb (entry_rank a) (entry_rank b)).
Proof.
  intros [[x Hx] _] [[y Hy] _]. unfold key_lt, rank_ltb, entry_rank.
  rewrite Hx, Hy. simpl. by destruct (Bool.eqb x y).
Qed.

Lemma sort_insert_ranked x l :
  ranked x → Forall ranked l → StronglySorted entry_le l →
  ∃ r, sort_insert x l = Some r ∧ r ≡ₚ x :: l ∧ StronglySorted entry_le r.
Proof.
  intros Hx Hl Hsorted.
  induction l as [|y l IH]; cbn [sort_insert].
  - exists [x]. repeat split; [done|]. repeat constructor.
  - apply Forall_cons in Hl as [Hy Hl].
    apply StronglySorted_inv in Hsorted as [Hsl Hyl].
    rewrite (key_lt_ranked y x Hy Hx). cbn [mbind option_bind].
    destruct (rank_ltb (entry_rank y) (entry_rank x)) eqn:Hlt.
    + destruct (IH Hl Hsl) as (r & -> & Hperm & Hr). cbn [mbind option_bind].
      exists (y :: r). split; [done|]. split.
      * rewrite Hperm. apply perm_swap.
      * constructor; [done|]. rewrite Hperm. constructor; [|done].
        apply rank_lt_le; [apply Hy | apply Hx | done].
    + exists (x :: y :: l). split; [done|]. split; [done|].
      assert (Hxy : entry_le x y)
        by (apply rank_not_lt_ge; [apply Hy | apply Hx | done]).
      constructor; [by constructor|]. constructor; [done|].
      rewrite Forall_forall in Hyl, Hl |- *. intros z Hz.
      apply (rank_le_trans _ (entry_rank y));
        [apply Hx | apply Hy | apply (Hl z Hz) | done | by apply Hyl].
Qed.

Lemma sort_by_key_ranked l :
  Forall ranked l →
  ∃ r, sort_by_key l = Some r ∧ r ≡ₚ l ∧ StronglySorted entry_le r.
Proof.
  induction l as [|x l IH]; intros Hl; cbn [sort_by_key].
  - exists []. repeat split; [done|constructor].
  - apply Forall_cons in Hl as [Hx Hl].
    destruct (IH Hl) as (s & -> & Hperm & Hs). cbn [mbind option_bind].
    destruct (sort_insert_ranked x s Hx) as (r & Hr & Hperm' & Hsorted);
      [by rewrite Hperm | done |].
    exists r. split; [done|]. split; [|done]. by rewrite Hperm', Hperm.
Qed.

Definition entries_value (l : list MortgageEntry) : Z :=
  foldr (fun e acc => me_value e + acc) 0 l.

(** The selection loop takes the shortest prefix that reaches the amount,
    or everything. *)
Lemma mortgage_select_prefix amount l : ∀ raised,
  ∃ k, mortgage_select amount l raised = map me_position (take k l) ∧
       (∀ j, (j < k)%nat → raised + entries_value (take j l) < amount) ∧
       (amount <= raised + entries_value (take k l) ∨ take k l = l).
Proof.
  induction l as [|e l IH]; intros raised; cbn [mortgage_select].
  - exists 0%nat. repeat split; [lia | by right].
  - destruct (amount <=? raised) eqn:Hreached.
    + exists 0%nat. apply Z.leb_le in Hreached.
      repeat split; [lia | left; simpl; lia].
    + apply Z.leb_gt in Hreached.
      destruct (IH (raised + me_value e)) as (k & -> & Hmin & Hend).
      exists (S k). split; [done|]. split.
      * intros [|j] Hj; simpl; [lia|].
        specialize (Hmin j ltac:(lia)). lia.
      * simpl. destruct Hend as [Hend| ->]; [left; lia | by right].
Qed.

Lemma entry_rank_grouped player pos :
  is_Some (Py.lookup pos POSITION_TO_GROUP) →
  entry_rank (mortgage_entry player pos) = mortgage_rank player pos
  ∧ ranked (mortgage_entry player pos).
Proof.
  intros [g Hg]. unfold ranked, entry_rank, mortgage_rank, mortgage_entry.
  rewrite Hg. cbn [me_has_monopoly me_group_quality]. simpl default.
  split; [done|]. split; [by eexists|].
  apply in_prod.
  - destruct (has_monopoly _ _); [right; left|left]; reflexivity.
  - destruct (get_default_or_elem g GROUP_QUALITY 1.0%float) as [->|Hin];
      [by left|right].
    apply list_elem_of_In in Hin.
    apply (in_map snd) in Hin. exact Hin.
Qed.

Lemma entries_value_positions player ps :
  entries_value (map (mortgage_entry player) ps) = total_mortgage_value ps.
Proof. induction ps as [|p ps IH]; [done|]. simpl. by rewrite IH. Qed.

Lemma positions_of_entries player ps :
  map me_position (map (mortgage_entry player) ps) = ps.
Proof. induction ps as [|p ps IH]; [done|]. simpl. by rewrite IH. Qed.

Lemma sorted_entries_positions player ps :
  Forall (fun p => is_Some (Py.lookup p POSITION_TO_GROUP)) ps →
  StronglySorted entry_le (map (mortgage_entry player) ps) →
  StronglySorted
    (fun p q => rank_leb (mortgage_rank player p) (mortgage_rank player q) = true)
    ps.
Proof.
  induction ps as [|p ps IH]; intros Hg Hs; [constructor|].
  apply Forall_cons in Hg as [Hp Hps]. cbn [map] in Hs.
  apply StronglySorted_inv in Hs as [Hs Hhd].
  constructor; [by apply IH|].
  pose proof (proj1 (Forall_forall _ _) Hhd) as Hhd'.
  pose proof (proj1 (Forall_forall _ _) Hps) as Hps'.
  apply Forall_forall. intros q Hq. clear Hhd. rename Hhd' into Hhd.
  specialize (Hhd (mortgage_entry player q)).
  unfold entry_le in Hhd.
  rewrite (proj1 (entry_rank_grouped player p Hp)) in Hhd.
  rewrite (proj1 (entry_rank_grouped player q (Hps' q Hq))) in Hhd.
  apply Hhd, list_elem_of_In, in_map, list_elem_of_In, Hq.
Qed.

Section MortgageProperties.

Variable set_iter : gset Z → list Z.
Hypothesis set_iter_perm : ∀ s, set_iter s ≡ₚ elements s.

(** C9: when every owned position is a property of the board,
    get_mortgage_decision returns the first k positions of a listing
    [ordered] that holds exactly the owned, unmortgaged, house-free
    positions, each once, in ascending order of (group held in full,
    group quality); no shorter prefix raises the target in half face
    values, and the returned prefix raises it unless it is the whole
    listing. *)
Theorem get_mortgage_decision_greedy state amount_needed :
  let player := my_state state in
  (∀ pos, pos ∈ properties player → is_Some (Py.lookup pos POSITION_TO_GROUP)) →
  ∃ (ordered : list Z) (k : nat),
    get_mortgage_decision set_iter state amount_needed = Some (take k ordered) ∧
    NoDup ordered ∧
    (∀ pos, pos ∈ ordered ↔
            pos ∈ properties player ∧ (pos ∉ mortgaged player) ∧
            houses_get (houses player) pos <= 0) ∧
    StronglySorted
      (fun p q => rank_leb (mortgage_rank player p) (mortgage_rank player q) = true)
      ordered ∧
    (∀ j, (j < k)%nat → total_mortgage_value (take j ordered) < amount_needed) ∧
    (amount_needed <= total_mortgage_value (take k ordered)
     ∨ take k ordered = ordered).
Proof.
  intros player Hgrouped. unfold get_mortgage_decision, mortgageable.
  fold player.
  set (cands := filter _ (set_iter (properties player))).
  assert (Hcands : ∀ pos, pos ∈ cands ↔
            pos ∈ properties player ∧ (pos ∉ mortgaged player) ∧
            houses_get (houses player) pos <= 0).
  { intros pos. unfold cands. rewrite list_elem_of_filter, set_iter_perm.
    rewrite elem_of_elements. split.
    - intros [[Hm Hh] Hp]. repeat split; [done..|lia].
    - intros (Hp & Hm & Hh). repeat split; [done|lia|done]. }
  assert (Hnodup : NoDup cands).
  { apply NoDup_filter. rewrite set_iter_perm. apply NoDup_elements. }
  assert (Hranked : Forall ranked (map (mortgage_entry player) cands)).
  { apply Forall_forall. intros e He.
    apply list_elem_of_In, in_map_iff in He as (pos & <- & Hpos).
    apply entry_rank_grouped, Hgrouped.
    by apply list_elem_of_In, Hcands in Hpos as [? _]. }
  destruct (sort_by_key_ranked _ Hranked) as (sorted & -> & Hperm & Hsorted).
  cbn [mbind option_bind].
  apply Permutation_map_inv in Hperm as (ordered & -> & Hperm).
  destruct (mortgage_select_prefix amount_needed
              (map (mortgage_entry player) ordered) 0)
    as (k & -> & Hmin & Hend).
  exists ordered, k. rewrite firstn_map, positions_of_entries.
  split; [done|]. split; [by rewrite <- Hperm|].
  split; [intros pos; by rewrite <- Hperm|].
  split.
  - apply sorted_entries_positions; [|done].
    apply Forall_forall. intros pos Hpos. apply Hgrouped.
    rewrite <- Hperm in Hpos. by apply Hcands in Hpos as [? _].
  - split.
    + intros j Hj. specialize (Hmin j Hj).
      rewrite firstn_map, entries_value_positions in Hmin. lia.
    + rewrite firstn_map, entries_value_positions in Hend.
      destruct Hend as [Hend|Hend]; [left; lia|right].
      rewrite <- (positions_of_entries player (take k ordered)), Hend.
      apply positions_of_entries.
Qed.

End MortgageProperties.

(** ** The theorems at concrete snapshots *)

Lemma elements_enumerates (s : gset Z) : elements s ≡ₚ elements s.
Proof. reflexivity. Qed.

Lemma purchase_state_consistent c : consistent_ownership (purchase_state c).
Proof.
  split.
  - intros opp Hopp. apply list_elem_of_singleton in Hopp as ->.
    change ({[16; 18]} ## ({[21; 23]} : gset Z)). set_solver.
  - intros o1 o2 H1 H2 Hne.
    apply list_elem_of_singleton in H1, H2. congruence.
Qed.

Lemma mortgage_state_grouped pos :
  pos ∈ properties (my_state mortgage_state) →
  is_Some (Py.lookup pos POSITION_TO_GROUP).
Proof.
  intros Hpos.
  assert (Hall : Forall (fun p => is_Some (Py.lookup p POSITION_TO_GROUP))
                        (elements (properties (my_state mortgage_state))))
    by compute_done.
  rewrite Forall_forall in Hall. by apply Hall, elem_of_elements.
Qed.


Lemma orange_red_offer_emitted :
  swap_offer orange_red_me orange_red_opp 21 19
    ∈ generate_trade_offers elements elements StrategicAI_init orange_red_state.
Proof. compute_done. Qed.

Lemma should_buy_property_monotonic_in_cash_at_300_600 :
  300 < 600 ∧
  should_buy_property StrategicAI_init (with_cash 300 (purchase_state 0)) 6 100 = true ∧
  should_buy_property StrategicAI_init (with_cash 600 (purchase_state 0)) 6 100 = true.
Proof.
  split; [lia|]. split; [by vm_compute|].
  apply (should_buy_property_monotonic_in_cash _ _ _ _ 300 600);
    [lia | by vm_compute].
Defined.



Lemma generate_trade_offers_sound_orange_red :
  ∃ opp give want,
    opp ∈ opponents orange_red_state ∧
    give ∈ properties (my_state orange_red_state) ∧
    want ∈ properties opp ∧ (want ∉ properties (my_state orange_red_state)) ∧
    from_player (swap_offer orange_red_me orange_red_opp 21 19)
      = player_id (my_state orange_red_state) ∧
    to_player (swap_offer orange_red_me orange_red_opp 21 19) = player_id opp ∧
    properties_offered (swap_offer orange_red_me orange_red_opp 21 19) = {[give]} ∧
    properties_requested (swap_offer orange_red_me orange_red_opp 21 19) = {[want]} ∧
    cash_toward_dearer_side (swap_offer orange_red_me orange_red_opp 21 19) give want ∧
    evaluate_trade elements elements StrategicAI_init orange_red_state
      (reverse_offer (swap_offer orange_red_me orange_red_opp 21 19)) = true.
Proof.
  apply (generate_trade_offers_sound elements elements StrategicAI_init orange_red_state).
  exact orange_red_offer_emitted.
Defined.

Lemma get_mortgage_decision_greedy_at_250 :
  ∃ (ordered : list Z) (k : nat),
    get_mortgage_decision elements mortgage_state 250 = Some (take k ordered) ∧
    NoDup ordered ∧
    (∀ pos, pos ∈ ordered ↔
            pos ∈ properties (my_state mortgage_state) ∧
            (pos ∉ mortgaged (my_state mortgage_state)) ∧
            houses_get (houses (my_state mortgage_state)) pos <= 0) ∧
    StronglySorted
      (fun p q => rank_leb (mortgage_rank (my_state mortgage_state) p)
                           (mortgage_rank (my_state mortgage_state) q) = true)
      ordered ∧
    (∀ j, (j < k)%nat → total_mortgage_value (take j ordered) < 250) ∧
    (250 <= total_mortgage_value (take k ordered) ∨ take k ordered = ordered).
Proof.
  exact (get_mortgage_decision_greedy elements elements_enumerates
           mortgage_state 250 mortgage_state_grouped).
Defined.

(** * Further properties of the engine *)

(** ** The tables agree with one another *)

Lemma group_members_known :
  Forall (fun gp => Forall (fun p => Py.lookup p POSITION_TO_GROUP = Some (fst gp))
                           (snd gp))
         GROUP_PROPERTIES.
Proof. compute_done. Qed.

Lemma priced_positions_grouped :
  Forall (fun kv => is_Some (Py.lookup (fst kv) POSITION_TO_GROUP) ∧ 0 < snd kv)
         PROPERTY_PRICES.
Proof. compute_done. Qed.

Lemma grouped_positions_priced :
  Forall (fun pg => is_Some (Py.lookup (fst pg) PROPERTY_PRICES)) POSITION_TO_GROUP.
Proof. compute_done. Qed.

Lemma position_in_its_group (p : Z) (g : string) :
  Py.lookup p POSITION_TO_GROUP = Some g → p ∈ get_group_properties (Some g).
Proof.
  intros Hg. apply lookup_Some_elem_of in Hg.
  pose proof position_groups_known as Hk. rewrite Forall_forall in Hk.
  by destruct (Hk _ Hg) as [Hmem _].
Qed.

(** X1: A position maps to a group exactly when it is listed among that
    group's members, and it has a face price exactly when it has a group;
    every face price is positive. *)
Theorem tables_consistent :
  (∀ (p : Z) (g : string),
     Py.lookup p POSITION_TO_GROUP = Some g ↔ p ∈ get_group_properties (Some g)) ∧
  (∀ p : Z,
     is_Some (Py.lookup p PROPERTY_PRICES) ↔ is_Some (Py.lookup p POSITION_TO_GROUP)) ∧
  (∀ p price : Z, Py.lookup p PROPERTY_PRICES = Some price → 0 < price).
Proof.
  split; [|split].
  - intros p g. split; [apply position_in_its_group|].
    rewrite get_group_properties_Some. intros Hp.
    destruct (get_default_or_elem g GROUP_PROPERTIES []) as [Hnil|Hin].
    { rewrite Hnil in Hp. by apply not_elem_of_nil in Hp. }
    pose proof group_members_known as Hk. rewrite Forall_forall in Hk.
    specialize (Hk _ Hin). cbn [fst snd] in Hk.
    rewrite Forall_forall in Hk. by apply Hk.
  - intros p. split; intros [v Hv]; apply lookup_Some_elem_of in Hv.
    + pose proof priced_positions_grouped as Hk. rewrite Forall_forall in Hk.
      by destruct (Hk _ Hv).
    + pose proof grouped_positions_priced as Hk. rewrite Forall_forall in Hk.
      exact (Hk _ Hv).
  - intros p price Hv. apply lookup_Some_elem_of in Hv.
    pose proof priced_positions_grouped as Hk. rewrite Forall_forall in Hk.
    by destruct (Hk _ Hv).
Qed.

(** ** Net worth *)

Lemma price_nonneg pos : 0 <= Py.get pos PROPERTY_PRICES 0.
Proof.
  destruct (get_default_or_elem pos PROPERTY_PRICES 0) as [->|Hin]; [done|].
  pose proof priced_positions_grouped as Hk. rewrite Forall_forall in Hk.
  destruct (Hk _ Hin) as [_ Hpos]. cbn [snd] in Hpos. lia.
Qed.

Lemma house_cost_nonneg group : 0 <= Py.get group HOUSE_COST 100.
Proof.
  destruct (get_default_or_elem group HOUSE_COST 100) as [->|Hin]; [done|].
  assert (Hall : Forall (fun kv => 0 <= snd kv) HOUSE_COST) by compute_done.
  rewrite Forall_forall in Hall. exact (Hall _ Hin).
Qed.

Lemma property_worth_nonneg player pos : 0 <= property_worth player pos.
Proof.
  unfold property_worth. pose proof (price_nonneg pos) as Hp.
  destruct (bool_decide (pos ∈ mortgaged player)).
  - apply Z.div_pos; lia.
  - destruct (Py.lookup pos POSITION_TO_GROUP) as [g|]; [|lia].
    destruct (0 <? houses_get (houses player) pos) eqn:Hn; [|lia].
    apply Z.ltb_lt in Hn. pose proof (house_cost_nonneg g). nia.
Qed.

Lemma fold_left_add_nonneg {A : Type} (f : A → Z) (l : list A) (a : Z) :
  (∀ x, 0 <= f x) → a <= fold_left (fun w x => w + f x) l a.
Proof.
  intros Hf. revert a. induction l as [|x l IH]; intros a; simpl; [lia|].
  specialize (IH (a + f x)). specialize (Hf x). lia.
Qed.

(** X2: calculate_net_worth does not depend on the order in which the set of
    properties is enumerated, and is never below the player's cash. *)
Theorem calculate_net_worth_order_free
    (iter1 iter2 : gset Z → list Z) (player : PlayerState) :
  (∀ s, iter1 s ≡ₚ elements s) → (∀ s, iter2 s ≡ₚ elements s) →
  calculate_net_worth iter1 player = calculate_net_worth iter2 player ∧
  cash player <= calculate_net_worth iter1 player.
Proof.
  intros H1 H2. rewrite !calculate_net_worth_sum. split.
  - apply fold_left_add_perm. by rewrite H1, H2.
  - apply fold_left_add_nonneg, property_worth_nonneg.
Qed.

Lemma calculate_net_worth_order_free_orange :
  calculate_net_worth elements (orange_seeker 500)
  = calculate_net_worth (fun s => reverse (elements s)) (orange_seeker 500) ∧
  cash (orange_seeker 500) <= calculate_net_worth elements (orange_seeker 500).
Proof.
  apply calculate_net_worth_order_free.
  - intros s. reflexivity.
  - intros s. apply reverse_Permutation.
Defined.

(** ** Trades: what is never accepted and never proposed *)

Lemma find_proposer_Some from opps proposer :
  find_proposer from opps = Some proposer →
  proposer ∈ opps ∧ player_id proposer = from.
Proof.
  induction opps as [|o opps IH]; cbn [find_proposer]; [discriminate|].
  destruct (String.eqb (player_id o) from) eqn:Hid.
  - intros [= <-]. split; [left|]. by apply String.eqb_eq.
  - intros Hfind. destruct (IH Hfind) as [Hin Heq]. split; [by right|done].
Qed.

(** X3: evaluate_trade accepts only an offer that leaves the acting player
    at least the reserve in cash and whose proposer is one of the
    opponents of the snapshot. *)
Theorem evaluate_trade_accepts_only
    (set_iter built_iter : gset Z → list Z) ai state offer :
  evaluate_trade set_iter built_iter ai state offer = true →
  absolute_min_cash ai
    <= cash (my_state state) + cash_offered offer - cash_requested offer ∧
  ∃ proposer, proposer ∈ opponents state ∧ player_id proposer = from_player offer.
Proof.
  unfold evaluate_trade.
  destruct (_ <? absolute_min_cash ai) eqn:Hcash; [discriminate|].
  apply Z.ltb_ge in Hcash.
  destruct (find_proposer _ _) as [proposer|] eqn:Hfind; [|discriminate].
  intros _. split; [done|]. exists proposer. by apply find_proposer_Some.
Qed.

Lemma evaluate_trade_accepts_only_orange_red :
  absolute_min_cash StrategicAI_init
    <= cash (my_state orange_red_state)
       + cash_offered (reverse_offer (swap_offer orange_red_me orange_red_opp 21 19))
       - cash_requested (reverse_offer (swap_offer orange_red_me orange_red_opp 21 19)) ∧
  ∃ proposer,
    proposer ∈ opponents orange_red_state ∧
    player_id proposer
    = from_player (reverse_offer (swap_offer orange_red_me orange_red_opp 21 19)).
Proof.
  apply (evaluate_trade_accepts_only elements elements). by vm_compute.
Defined.

(** What an emitted offer is made of. *)
Lemma generated_offer_parts (set_iter built_iter : gset Z → list Z) ai state offer :
  offer ∈ generate_trade_offers set_iter built_iter ai state →
  ∃ opp give want,
    opp ∈ opponents state ∧ give ∈ properties (my_state state) ∧
    offer = swap_offer (my_state state) opp give want ∧
    evaluate_trade set_iter built_iter ai state (reverse_offer offer) = true.
Proof.
  intros Hin. unfold generate_trade_offers in Hin.
  apply list_elem_of_In, in_flat_map in Hin as ([g positions] & _ & Hin).
  cbn [snd] in Hin. destruct (_ || _); [destruct Hin|].
  apply in_flat_map in Hin as (want & _ & Hin).
  apply in_flat_map in Hin as (opp & Hopp & Hin).
  destruct (bool_decide (want ∈ properties opp)); [|destruct Hin].
  apply in_flat_map in Hin as ([tg tpositions] & _ & Hin). cbn [snd] in Hin.
  destruct (filter (fun p => p ∈ properties opp) tpositions); [destruct Hin|].
  destruct (filter (fun p => p ∈ properties (my_state state)) tpositions)
    as [|give rest] eqn:Hgive; [destruct Hin|].
  destruct (evaluate_trade set_iter built_iter ai state _) eqn:Heval; [|destruct Hin].
  destruct Hin as [<-|[]].
  exists opp, give, want. apply list_elem_of_In in Hopp.
  repeat split; try done.
  assert (Hf : give ∈ filter (fun p => p ∈ properties (my_state state)) tpositions)
    by (rewrite Hgive; left).
  by apply list_elem_of_filter in Hf as [? _].
Qed.

(** X4: Every offer of generate_trade_offers can be paid: after handing over
    the cash it offers and receiving the cash it asks for, the acting
    player still holds the reserve; and it is addressed to a player whose
    id is an opponent's. *)
Theorem generate_trade_offers_keep_reserve
    (set_iter built_iter : gset Z → list Z) ai state offer :
  offer ∈ generate_trade_offers set_iter built_iter ai state →
  absolute_min_cash ai
    <= cash (my_state state) - cash_offered offer + cash_requested offer ∧
  ∃ opp, opp ∈ opponents state ∧ player_id opp = to_player offer.
Proof.
  intros Hin. apply generated_offer_parts in Hin as (_ & _ & _ & _ & _ & _ & Hacc).
  unfold evaluate_trade in Hacc.
  destruct (_ <? absolute_min_cash ai) eqn:Hcash; [discriminate|].
  apply Z.ltb_ge in Hcash.
  destruct (find_proposer _ _) as [proposer|] eqn:Hfind; [|discriminate].
  apply find_proposer_Some in Hfind.
  cbn [reverse_offer cash_offered cash_requested from_player] in Hcash, Hfind.
  split; [lia|by exists proposer].
Qed.

Lemma generate_trade_offers_keep_reserve_orange_red :
  absolute_min_cash StrategicAI_init
    <= cash (my_state orange_red_state)
       - cash_offered (swap_offer orange_red_me orange_red_opp 21 19)
       + cash_requested (swap_offer orange_red_me orange_red_opp 21 19) ∧
  ∃ opp, opp ∈ opponents orange_red_state ∧
         player_id opp = to_player (swap_offer orange_red_me orange_red_opp 21 19).
Proof.
  apply (generate_trade_offers_keep_reserve elements elements).
  exact orange_red_offer_emitted.
Defined.

(** X5: Without opponents, or without any property of one's own, nothing is
    proposed. *)
Theorem generate_trade_offers_nothing_to_trade
    (set_iter built_iter : gset Z → list Z) ai state :
  opponents state = [] ∨ properties (my_state state) = ∅ →
  generate_trade_offers set_iter built_iter ai state = [].
Proof.
  intros Hnone.
  destruct (generate_trade_offers set_iter built_iter ai state) as [|offer rest] eqn:Hgen;
    [done|].
  assert (Hin : offer ∈ generate_trade_offers set_iter built_iter ai state)
    by (rewrite Hgen; left).
  apply generated_offer_parts in Hin as (opp & give & _ & Hopp & Hgive & _).
  destruct Hnone as [Hnone|Hnone]; rewrite Hnone in *.
  - by apply not_elem_of_nil in Hopp.
  - by apply not_elem_of_empty in Hgive.
Qed.

Lemma generate_trade_offers_nothing_alone :
  generate_trade_offers elements elements StrategicAI_init short_of_reserve = [].
Proof.
  apply generate_trade_offers_nothing_to_trade. left. reflexivity.
Defined.

(** ** Trades: the enumeration of equal sets *)

(** The holder of 1, 19 and 27 among three opponents, and an offer of 100
    in cash for nothing. *)
Definition cash_gift_state : GameState :=
  GameState_new (PlayerState_new "me" 500 {[1; 19; 27]})
    [PlayerState_new "a" 500 ∅; PlayerState_new "b" 500 ∅;
     PlayerState_new "c" 500 ∅] "me".

Definition cash_gift : TradeOffer :=
  {| from_player := "a"; to_player := "me";
     properties_offered := ∅; properties_requested := ∅;
     cash_offered := 100; cash_requested := 0 |}.

(** The EPT comparison of evaluate_trade tells apart two enumerations of
    the same holdings: summed as 1, 27, 19 the EPT is
    3.0000000000000004, summed as 1, 19, 27 it is 3.0.  Enumerated alike
    before and after, the gift is accepted; enumerated the first way
    before and the second way after, it is refused. *)
Lemma evaluate_trade_order_sensitive :
  let snapshot_order := fun _ : gset Z => [1; 27; 19] in
  let rebuilt_order := fun _ : gset Z => [1; 19; 27] in
  evaluate_trade snapshot_order snapshot_order StrategicAI_init
    cash_gift_state cash_gift = true ∧
  evaluate_trade snapshot_order rebuilt_order StrategicAI_init
    cash_gift_state cash_gift = false.
Proof. split; vm_compute; reflexivity. Qed.

(** ** Auction: the size of a bid *)

Lemma py_sum_map_nonneg {A : Type} (f : A → Z) (l : list A) :
  (∀ x, 0 <= f x) → 0 <= Py.sum (map f l).
Proof.
  intros Hf. unfold Py.sum.
  assert (Hacc : ∀ a, 0 <= a → 0 <= fold_left Z.add (map f l) a).
  { induction l as [|x l IH]; intros a Ha; simpl; [done|].
    apply IH. specialize (Hf x). lia. }
  by apply Hacc.
Qed.

(** X6: A bid returned by get_auction_bid is either the pass value 0, or it
    lies above the current bid by at most 10 and within the acting
    player's cash plus the absolute debt cap less the reserve. *)
Theorem get_auction_bid_step
    (set_iter : gset Z → list Z) ai state position current_bid bid :
  get_auction_bid set_iter ai state position current_bid = Some bid →
  bid = 0 ∨
  (current_bid < bid ∧ bid <= current_bid + 10 ∧
   bid <= cash (my_state state) + max_absolute_debt ai - absolute_min_cash ai).
Proof.
  unfold get_auction_bid, auction_ceiling.
  destruct (premium_max_bid _ _ _ _) as [m|]; [|discriminate].
  cbn [mbind option_bind].
  destruct (affordable_bid set_iter ai (my_state state)) as [a|] eqn:Ha;
    [|discriminate].
  cbn [mbind option_bind].
  assert (Hafford : a <= cash (my_state state) + max_absolute_debt ai
                         - absolute_min_cash ai).
  { unfold affordable_bid in Ha.
    destruct (Py.int_mul _ _) as [r|]; [|discriminate].
    cbn [mbind option_bind] in Ha. injection Ha as <-.
    pose proof (py_sum_map_nonneg
                  (fun p => Z.div (Py.get p PROPERTY_PRICES 0) 2)
                  (set_iter (mortgaged (my_state state)))) as Hdebt.
    assert (0 <= Py.sum (map (fun p => Z.div (Py.get p PROPERTY_PRICES 0) 2)
                              (set_iter (mortgaged (my_state state))))).
    { apply Hdebt. intros p. apply Z.div_pos; [apply price_nonneg|lia]. }
    lia. }
  destruct (Z.min m a <=? current_bid) eqn:Hpass; intros [= <-]; [by left|].
  apply Z.leb_gt in Hpass. right. lia.
Qed.

Lemma get_auction_bid_step_orange :
  110 = 0 ∨
  (100 < 110 ∧ 110 <= 100 + 10 ∧
   110 <= cash (my_state (purchase_state 500))
          + max_absolute_debt StrategicAI_init
          - absolute_min_cash StrategicAI_init).
Proof.
  apply (get_auction_bid_step elements StrategicAI_init (purchase_state 500) 19).
  by vm_compute.
Defined.

(** ** Mortgaging: when the sort cannot compare *)

(** Whether the first component of an entry's sort key is a bool (the
    position has a group) rather than None. *)
Definition keyed (e : MortgageEntry) : bool :=
  match me_has_monopoly e with
  | Some _ => true
  | None => false
  end.

(** Brown's first lot next to the Community Chest square 2, which is in
    none of the tables. *)
Definition chest_holder_state : GameState :=
  GameState_new (PlayerState_new "me" 100 {[1; 2]}) [] "me".

Lemma key_lt_None a b : key_lt a b = None ↔ keyed a ≠ keyed b.
Proof.
  unfold key_lt, keyed.
  destruct (me_has_monopoly a) as [x|], (me_has_monopoly b) as [y|];
    try destruct (Bool.eqb x y); split; (congruence || done).
Qed.

Lemma sort_insert_same_kind x l :
  Forall (fun y => keyed y = keyed x) l → is_Some (sort_insert x l).
Proof.
  induction l as [|y l IH]; intros Hl; cbn [sort_insert]; [by eexists|].
  apply Forall_cons in Hl as [Hy Hl].
  destruct (key_lt y x) as [lt|] eqn:Hlt.
  - cbn [mbind option_bind]. destruct lt; [|by eexists].
    destruct (IH Hl) as [r ->]. by eexists.
  - apply key_lt_None in Hlt. done.
Qed.

Lemma sort_insert_other_kind x y l :
  keyed y ≠ keyed x → sort_insert x (y :: l) = None.
Proof.
  intros Hne. cbn [sort_insert].
  by rewrite (proj2 (key_lt_None y x) Hne).
Qed.

Lemma sort_insert_perm x l : ∀ r, sort_insert x l = Some r → r ≡ₚ x :: l.
Proof.
  induction l as [|y l IH]; intros r; cbn [sort_insert].
  - by intros [= <-].
  - destruct (key_lt y x) as [[|]|]; cbn [mbind option_bind]; [| |discriminate].
    + destruct (sort_insert x l) as [r'|]; cbn [mbind option_bind];
        [|discriminate].
      intros [= <-]. rewrite (IH r' eq_refl). apply perm_swap.
    + by intros [= <-].
Qed.

Lemma sort_by_key_perm l : ∀ r, sort_by_key l = Some r → r ≡ₚ l.
Proof.
  induction l as [|x l IH]; intros r; cbn [sort_by_key].
  - by intros [= <-].
  - destruct (sort_by_key l) as [s|]; cbn [mbind option_bind]; [|discriminate].
    intros Hr. apply sort_insert_perm in Hr. by rewrite Hr, (IH s eq_refl).
Qed.

(** The sort fails exactly on a list that holds keys of both kinds. *)
Lemma sort_by_key_None l :
  sort_by_key l = None ↔ ∃ a b, a ∈ l ∧ b ∈ l ∧ keyed a ≠ keyed b.
Proof.
  induction l as [|x l IH]; cbn [sort_by_key].
  - split; [discriminate|]. intros (a & _ & Ha & _).
    by apply not_elem_of_nil in Ha.
  - destruct (sort_by_key l) as [s|] eqn:Hs; cbn [mbind option_bind].
    + pose proof (sort_by_key_perm l s Hs) as Hperm.
      assert (Hsame : ∀ a b, a ∈ l → b ∈ l → keyed a = keyed b).
      { intros a b Ha Hb. destruct (decide (keyed a = keyed b)); [done|].
        exfalso. assert (Hmixed : ∃ a b, a ∈ l ∧ b ∈ l ∧ keyed a ≠ keyed b)
          by (by exists a, b).
        apply IH in Hmixed. discriminate. }
      split.
      * intros Hnone.
        destruct (decide (Forall (fun y => keyed y = keyed x) s)) as [Hall|Hnot].
        { apply sort_insert_same_kind in Hall as [r Hr]. congruence. }
        apply not_Forall_Exists in Hnot; [|intros y; apply _].
        apply Exists_exists in Hnot as (y & Hy & Hne).
        exists y, x. rewrite Hperm in Hy.
        split; [by right|]. split; [left|done].
      * intros (a & b & Ha & Hb & Hne).
        assert (Hother : ∃ y, y ∈ l ∧ keyed y ≠ keyed x).
        { apply elem_of_cons in Ha as [->|Ha], Hb as [->|Hb].
          - done.
          - exists b. split; [done|congruence].
          - exists a. by split.
          - by specialize (Hsame a b Ha Hb). }
        destruct Hother as (y & Hy & Hne').
        destruct s as [|h s'].
        { rewrite <- Hperm in Hy. by apply not_elem_of_nil in Hy. }
        apply sort_insert_other_kind.
        rewrite <- (Hsame y h Hy); [done|]. rewrite <- Hperm. left.
    + split; [|done]. intros _.
      destruct (proj1 IH eq_refl) as (a & b & Ha & Hb & Hne).
      exists a, b. repeat split; [by right|by right|done].
Qed.

Lemma keyed_mortgage_entry player pos :
  keyed (mortgage_entry player pos)
  = bool_decide (is_Some (Py.lookup pos POSITION_TO_GROUP)).
Proof.
  unfold keyed, mortgage_entry. cbn [me_has_monopoly].
  destruct (Py.lookup pos POSITION_TO_GROUP).
  - by rewrite bool_decide_eq_true_2.
  - rewrite bool_decide_eq_false_2; [done|]. by intros [? ?].
Qed.

(** X7: get_mortgage_decision raises (TypeError in list.sort) exactly when,
    among the owned, unmortgaged, house-free positions, one has a group
    and another has none; and with nothing to raise it returns the empty
    list unless it raises. *)
Theorem get_mortgage_decision_error
    (set_iter : gset Z → list Z) (state : GameState) (amount_needed : Z) :
  (∀ s, set_iter s ≡ₚ elements s) →
  let player := my_state state in
  let candidate := fun pos =>
    pos ∈ properties player ∧ (pos ∉ mortgaged player) ∧
    houses_get (houses player) pos <= 0 in
  (get_mortgage_decision set_iter state amount_needed = None ↔
   ∃ p q, candidate p ∧ candidate q ∧
          is_Some (Py.lookup p POSITION_TO_GROUP) ∧
          Py.lookup q POSITION_TO_GROUP = None) ∧
  (amount_needed <= 0 →
   get_mortgage_decision set_iter state amount_needed = None ∨
   get_mortgage_decision set_iter state amount_needed = Some []).
Proof.
  intros Hiter player candidate.
  unfold get_mortgage_decision, mortgageable. fold player.
  set (cands := filter _ (set_iter (properties player))).
  assert (Hcands : ∀ pos, pos ∈ cands ↔ candidate pos).
  { intros pos. unfold cands, candidate.
    rewrite list_elem_of_filter, Hiter, elem_of_elements. split.
    - intros [[Hm Hh] Hp]. repeat split; [done..|lia].
    - intros (Hp & Hm & Hh). repeat split; [done|lia|done]. }
  split.
  - destruct (sort_by_key (map (mortgage_entry player) cands)) as [s|] eqn:Hs;
      cbn [mbind option_bind].
    + split; [discriminate|]. intros (p & q & Hp & Hq & Hpg & Hqg).
      assert (Hmixed : ∃ a b, a ∈ map (mortgage_entry player) cands ∧
                              b ∈ map (mortgage_entry player) cands ∧
                              keyed a ≠ keyed b).
      { exists (mortgage_entry player p), (mortgage_entry player q).
        split; [apply list_elem_of_In, in_map, list_elem_of_In, Hcands, Hp|].
        split; [apply list_elem_of_In, in_map, list_elem_of_In, Hcands, Hq|].
        rewrite !keyed_mortgage_entry, Hqg.
        rewrite (bool_decide_eq_true_2 _ Hpg).
        rewrite bool_decide_eq_false_2; [done|]. by intros [? ?]. }
      apply sort_by_key_None in Hmixed. congruence.
    + split; [|done]. intros _.
      apply sort_by_key_None in Hs as (a & b & Ha & Hb & Hne).
      apply list_elem_of_In, in_map_iff in Ha as (p & <- & Hp).
      apply list_elem_of_In, in_map_iff in Hb as (q & <- & Hq).
      apply list_elem_of_In, Hcands in Hp, Hq.
      rewrite !keyed_mortgage_entry in Hne.
      destruct (Py.lookup p POSITION_TO_GROUP) as [gp|] eqn:Hgp,
               (Py.lookup q POSITION_TO_GROUP) as [gq|] eqn:Hgq.
      * by rewrite !bool_decide_eq_true_2 in Hne.
      * exists p, q. try rewrite Hgp. try rewrite Hgq.
        split; [done|]. split; [done|]. split; [by eexists|done].
      * exists q, p. try rewrite Hgp. try rewrite Hgq.
        split; [done|]. split; [done|]. split; [by eexists|done].
      * exfalso. apply Hne. f_equal.
  - intros Hamount.
    destruct (sort_by_key (map (mortgage_entry player) cands)) as [s|];
      cbn [mbind option_bind]; [right|by left].
    f_equal. destruct s as [|e s]; [done|]. cbn [mortgage_select].
    by rewrite (proj2 (Z.leb_le _ _) Hamount).
Qed.

Lemma get_mortgage_decision_raises_on_chest :
  get_mortgage_decision elements chest_holder_state 100 = None.
Proof.
  apply (proj1 (get_mortgage_decision_error elements chest_holder_state 100
                  elements_enumerates)).
  exists 1, 2. repeat split; try (by vm_compute); set_solver.
Defined.

(** ** The float products against exact percentages *)

(** [int(n * x)] equals [n * num / den] for the [count] integers from
    [n] on. *)
Fixpoint percent_exact (x : float) (num den : Z) (n : Z) (count : nat) : bool :=
  match count with
  | O => true
  | S count' =>
      match Py.int_mul n x with
      | Some r => (r =? n * num / den) && percent_exact x num den (n + 1) count'
      | None => false
      end
  end.

Lemma percent_exact_sound x num den count : ∀ n,
  percent_exact x num den n count = true →
  ∀ m, n <= m < n + Z.of_nat count → Py.int_mul m x = Some (m * num / den).
Proof.
  induction count as [|count IH]; intros n Hok m Hm; [lia|].
  cbn [percent_exact] in Hok.
  destruct (Py.int_mul n x) as [r|] eqn:Hr; [|discriminate].
  apply andb_true_iff in Hok as [Heq Hrest]. apply Z.eqb_eq in Heq.
  destruct (decide (m = n)) as [->|Hne].
  - by rewrite Hr, Heq.
  - apply (IH (n + 1) Hrest). lia.
Qed.

Lemma percent_exact_checked :
  percent_exact 1.05 105 100 0 1001 = true ∧
  percent_exact 1.5 3 2 0 1001 = true ∧
  percent_exact 1.3 13 10 0 1001 = true ∧
  percent_exact 0.55 55 100 0 1001 = true ∧
  percent_exact 0.15 15 100 0 4001 = true.
Proof. split; [|split; [|split; [|split]]]; vm_compute; reflexivity. Qed.

(** On the amounts the engine meets, its float arithmetic is exact: for
    every integer from 0 to 1000, int(n * 1.05), int(n * 1.5),
    int(n * 1.3) and int(n * 0.55) are n times 105/100, 3/2, 13/10 and
    55/100 rounded down, and for every integer from 0 to 4000
    int(n * 0.15) is n times 15/100 rounded down. *)
Theorem float_percentages_exact :
  (∀ n, 0 <= n <= 1000 →
     Py.int_mul n 1.05 = Some (n * 105 / 100) ∧
     Py.int_mul n 1.5 = Some (n * 3 / 2) ∧
     Py.int_mul n 1.3 = Some (n * 13 / 10) ∧
     Py.int_mul n 0.55 = Some (n * 55 / 100)) ∧
  (∀ n, 0 <= n <= 4000 → Py.int_mul n 0.15 = Some (n * 15 / 100)).
Proof.
  pose proof percent_exact_checked as (H105 & H15 & H13 & H55 & H015).
  split.
  - intros n Hn.
    split; [|split; [|split]].
    + apply (percent_exact_sound _ _ _ _ _ H105). lia.
    + apply (percent_exact_sound _ _ _ _ _ H15). lia.
    + apply (percent_exact_sound _ _ _ _ _ H13). lia.
    + apply (percent_exact_sound _ _ _ _ _ H55). lia.
  - intros n Hn. apply (percent_exact_sound _ _ _ _ _ H015). lia.
Qed.

(** The premiums of get_auction_bid in exact integer arithmetic, for
    every face value from 0 to 600 (the table's prices lie between 60 and
    400): 105% of the price, then 3/2 for the bidder's own group, then
    13/10 for blocking, each rounded down. *)
Theorem premium_steps_exact (own block : bool) (price : Z) :
  0 <= price <= 600 →
  premium_steps own block price
  = Some (let base := price * 105 / 100 in
          let raised := if own then base * 3 / 2 else base in
          if block then raised * 13 / 10 else raised).
Proof.
  intros Hp. pose proof float_percentages_exact as [Hexact _].
  unfold premium_steps.
  destruct (Hexact price ltac:(lia)) as (-> & _). cbn [mbind option_bind].
  set (base := price * 105 / 100).
  assert (Hbase : 0 <= base <= 630).
  { unfold base. split; [apply Z.div_pos; lia|].
    apply Z.div_le_upper_bound; lia. }
  assert (Hraised : 0 <= base * 3 / 2 <= 945).
  { split; [apply Z.div_pos; lia|]. apply Z.div_le_upper_bound; lia. }
  destruct own.
  - destruct (Hexact base ltac:(lia)) as (_ & -> & _). cbn [mbind option_bind].
    destruct block; [|done].
    by destruct (Hexact (base * 3 / 2) ltac:(lia)) as (_ & _ & -> & _).
  - cbn [mbind option_bind]. destruct block; [|done].
    by destruct (Hexact base ltac:(lia)) as (_ & _ & -> & _).
Qed.

Lemma premium_steps_exact_on_200 :
  premium_steps true false 200
  = Some (let base := 200 * 105 / 100 in
          let raised := if true then base * 3 / 2 else base in
          if false then raised * 13 / 10 else raised).
Proof. apply premium_steps_exact. lia. Defined.

(** ** Unmortgaging *)

(** [StrategicAI.should_unmortgage]; [None] stands for an exception of
    [int(...)], which no face value of the table provokes. *)
Definition should_unmortgage (ai : StrategicAI) (state : GameState)
    (position : Z) : option bool :=
  let player := my_state state in
  if negb (bool_decide (position ∈ mortgaged player)) then Some false
  else
    let price := Py.get position PROPERTY_PRICES 0 in
    unmortgage_cost ← Py.int_mul price 0.55;
    if cash player - unmortgage_cost <? absolute_min_cash ai + 100 then Some false
    else
      match Py.lookup position POSITION_TO_GROUP with
      | Some group =>
          if has_monopoly (properties player) (Some group) then Some true
          else Some false
      | None => Some false
      end.

(** A mortgaged orange lot of a complete orange group. *)
Definition mortgaged_orange (c : Z) : GameState :=
  GameState_new
    {| player_id := "me"; cash := c; properties := {[16; 18; 19]};
       position := 0; in_jail := false; mortgaged := {[19]}; houses := ∅ |}
    [] "me".

Lemma price_at_most_400 pos : 0 <= Py.get pos PROPERTY_PRICES 0 <= 400.
Proof.
  destruct (get_default_or_elem pos PROPERTY_PRICES 0) as [->|Hin]; [lia|].
  assert (Hall : Forall (fun kv => 0 <= snd kv <= 400) PROPERTY_PRICES)
    by compute_done.
  rewrite Forall_forall in Hall. exact (Hall _ Hin).
Qed.

(** X8: should_unmortgage always returns, and says yes exactly when the
    position is mortgaged, its group is held in full, and the cash left
    after paying 55% of the face value (rounded down) is at least the
    reserve plus 100; in particular only for a position the player owns. *)
Theorem should_unmortgage_iff (state : GameState) (position : Z) :
  let player := my_state state in
  let cost := Py.get position PROPERTY_PRICES 0 * 55 / 100 in
  should_unmortgage StrategicAI_init state position
  = Some (bool_decide (position ∈ mortgaged player)
          && bool_decide (is_Some (Py.lookup position POSITION_TO_GROUP))
          && has_monopoly (properties player) (Py.lookup position POSITION_TO_GROUP)
          && (75 + 100 <=? cash player - cost)) ∧
  (should_unmortgage StrategicAI_init state position = Some true →
   position ∈ properties player).
Proof.
  intros player cost.
  assert (Heq : should_unmortgage StrategicAI_init state position
    = Some (bool_decide (position ∈ mortgaged player)
            && bool_decide (is_Some (Py.lookup position POSITION_TO_GROUP))
            && has_monopoly (properties player) (Py.lookup position POSITION_TO_GROUP)
            && (75 + 100 <=? cash player - cost))).
  { unfold should_unmortgage. fold player.
    destruct (bool_decide (position ∈ mortgaged player)); [|done].
    cbn [negb andb].
    pose proof float_percentages_exact as [Hexact _].
    pose proof (price_at_most_400 position) as [Hlo Hhi].
    assert (Hrange : 0 <= Py.get position PROPERTY_PRICES 0 <= 1000)
      by (clear -Hlo Hhi; lia).
    destruct (Hexact _ Hrange) as (_ & _ & _ & ->).
    cbn [mbind option_bind absolute_min_cash StrategicAI_init]. fold cost.
    rewrite (Z.ltb_antisym (75 + 100)).
    destruct (75 + 100 <=? cash player - cost); cbn [negb];
      [|by rewrite andb_false_r].
    rewrite andb_true_r.
    destruct (Py.lookup position POSITION_TO_GROUP) as [g|].
    - rewrite bool_decide_eq_true_2 by (by eexists).
      by destruct (has_monopoly _ _).
    - rewrite bool_decide_eq_false_2; [done|]. by intros [? ?]. }
  split; [exact Heq|].
  rewrite Heq. intros [= Hyes].
  apply andb_true_iff in Hyes as [Hyes _].
  apply andb_true_iff in Hyes as [Hyes Hmono].
  apply andb_true_iff in Hyes as [_ Hgroup].
  apply bool_decide_eq_true in Hgroup as [g Hg].
  rewrite Hg in Hmono. rewrite has_monopoly_spec in Hmono. apply Hmono.
  by apply position_in_its_group.
Qed.

(** X9: should_unmortgage is monotonic in cash. *)
Theorem should_unmortgage_monotonic_in_cash
    (ai : StrategicAI) (state : GameState) (position c c' : Z) :
  c <= c' →
  should_unmortgage ai (with_cash c state) position = Some true →
  should_unmortgage ai (with_cash c' state) position = Some true.
Proof.
  intros Hle. unfold should_unmortgage.
  cbn [my_state with_cash cash properties mortgaged].
  destruct (negb _); [discriminate|].
  destruct (Py.int_mul _ _) as [cost|]; [|discriminate].
  cbn [mbind option_bind].
  destruct (c - cost <? absolute_min_cash ai + 100) eqn:Hc; [discriminate|].
  apply Z.ltb_ge in Hc.
  assert (Hc' : (c' - cost <? absolute_min_cash ai + 100) = false)
    by (apply Z.ltb_ge; lia).
  by rewrite Hc'.
Qed.

Lemma should_unmortgage_monotonic_at_300_400 :
  should_unmortgage StrategicAI_init (with_cash 400 (mortgaged_orange 0)) 19
  = Some true.
Proof.
  apply (should_unmortgage_monotonic_in_cash _ _ _ 300 400); [lia|].
  by vm_compute.
Defined.

(** ** Jail *)

(** [sum(houses.values())]. *)
Definition houses_total (h : gmap Z Z) : Z := Py.sum (map snd (map_to_list h)).

(** [StrategicAI.should_pay_jail_fee]. *)
Definition should_pay_jail_fee (state : GameState) : bool :=
  let player := my_state state in
  if existsb (fun gp => has_monopoly (properties player) (Some (fst gp)))
             GROUP_PROPERTIES
  then true
  else
    let total_houses :=
      fold_left (fun total opp => total + houses_total (houses opp))
                (opponents state) (houses_total (houses player)) in
    if 10 <? total_houses then true else false.

(** The houses and hotels on the board, over all players. *)
Definition houses_on_board (state : GameState) : Z :=
  foldr (fun p acc => houses_total (houses p) + acc) 0
        (my_state state :: opponents state).

Lemma group_keys_unique :
  Forall (fun gp => Py.get (fst gp) GROUP_PROPERTIES [] = snd gp) GROUP_PROPERTIES.
Proof. compute_done. Qed.

Lemma quality_positive_checked :
  forallb (fun m => Bool.eqb (0 <? quality_of_mask m GROUP_PROPERTIES 0)%float
                             (existsb id m))
          (all_masks 10) = true.
Proof. vm_compute. reflexivity. Qed.

(** The quality of a set of properties is positive exactly when the set
    holds some group in full. *)
Lemma holds_group_quality_positive (S : gset Z) :
  existsb (fun gp => has_monopoly S (Some (fst gp))) GROUP_PROPERTIES
  = Py.gt (get_monopoly_quality S) 0.
Proof.
  rewrite get_monopoly_quality_mask. unfold Py.gt.
  set (mask := map (fun gp => owns_all S (snd gp)) GROUP_PROPERTIES).
  assert (Hex : existsb (fun gp => has_monopoly S (Some (fst gp))) GROUP_PROPERTIES
                = existsb id mask).
  { unfold mask.
    assert (Hany : ∀ l,
              Forall (fun gp => Py.get (fst gp) GROUP_PROPERTIES [] = snd gp) l →
              existsb (fun gp => has_monopoly S (Some (fst gp))) l
              = existsb id (map (fun gp => owns_all S (snd gp)) l)).
    { induction l as [|gp l IH]; intros Hkeys; [done|].
      apply Forall_cons in Hkeys as [Hgp Hl].
      cbn [existsb map]. rewrite (IH Hl). f_equal.
      unfold has_monopoly. rewrite get_group_properties_Some, Hgp. reflexivity. }
    apply Hany, group_keys_unique. }
  rewrite Hex. pose proof quality_positive_checked as Hall.
  rewrite forallb_forall in Hall. specialize (Hall mask).
  symmetry. apply Bool.eqb_prop, Hall, list_elem_of_In.
  replace 10%nat with (length mask); [apply all_masks_complete|].
  unfold mask. by rewrite length_map.
Qed.

Lemma houses_fold_total (opps : list PlayerState) (a : Z) :
  fold_left (fun total opp => total + houses_total (houses opp)) opps a
  = a + foldr (fun p acc => houses_total (houses p) + acc) 0 opps.
Proof.
  revert a. induction opps as [|o opps IH]; intros a; simpl; [lia|].
  rewrite IH. lia.
Qed.

(** X10: should_pay_jail_fee pays exactly when the acting player's monopoly
    quality is positive or more than 10 houses stand on the board; the
    player's cash plays no part in it. *)
Theorem should_pay_jail_fee_iff (state : GameState) :
  should_pay_jail_fee state
  = Py.gt (get_monopoly_quality (properties (my_state state))) 0
    || (10 <? houses_on_board state) ∧
  ∀ c, should_pay_jail_fee (with_cash c state) = should_pay_jail_fee state.
Proof.
  split; [|reflexivity].
  unfold should_pay_jail_fee, houses_on_board.
  rewrite holds_group_quality_positive, houses_fold_total. cbn [foldr].
  destruct (Py.gt _ _); [done|]. cbn [orb]. by destruct (10 <? _).
Qed.

(** ** Blocking value *)

(** The loop of [BoardMapper.get_blocking_value] over the opponents'
    holdings; [value] is what it returns at the first opponent that owns
    all members of the group but one. *)
Fixpoint blocking_value_loop (group_props : list Z) (value : float)
    (other_players_owned : list (gset Z)) : float :=
  match other_players_owned with
  | [] => 0
  | opponent_owned :: rest =>
      let owned_in_group := filter (fun p => p ∈ opponent_owned) group_props in
      if Z.of_nat (length owned_in_group) =? Z.of_nat (length group_props) - 1
      then value
      else blocking_value_loop group_props value rest
  end.

(** [BoardMapper.get_blocking_value]; the int 0 it returns when nothing
    is to be blocked is the float 0. *)
Definition get_blocking_value (position : Z)
    (other_players_owned : list (gset Z)) : float :=
  match Py.lookup position POSITION_TO_GROUP with
  | None => 0
  | Some group =>
      let group_props := get_group_properties (Some group) in
      blocking_value_loop group_props
        (Py.float_of_int (Py.get position PROPERTY_PRICES 100%Z)
         * get_group_quality (Some group) * 0.5)%float
        other_players_owned
  end.

(** An opponent holds all members of the group but one. *)
Definition one_short (group_props : list Z) (owned : gset Z) : bool :=
  (length (filter (fun p => p ∈ owned) group_props) + 1 =? length group_props)%nat.

Lemma blocking_values_positive :
  forallb (fun pg =>
             Py.gt (Py.float_of_int (Py.get (fst pg) PROPERTY_PRICES 100%Z)
                    * get_group_quality (Some (snd pg)) * 0.5)%float 0)
          POSITION_TO_GROUP = true.
Proof. vm_compute. reflexivity. Qed.

Lemma blocking_value_loop_spec group_props value others :
  blocking_value_loop group_props value others
  = if existsb (one_short group_props) others then value else 0%float.
Proof.
  induction others as [|owned rest IH]; [done|].
  cbn [blocking_value_loop existsb]. rewrite IH.
  assert (Hshort :
    (Z.of_nat (length (filter (fun p => p ∈ owned) group_props))
     =? Z.of_nat (length group_props) - 1)
    = one_short group_props owned).
  { unfold one_short. apply eq_true_iff_eq.
    rewrite Z.eqb_eq, Nat.eqb_eq. lia. }
  rewrite Hshort. by destruct (one_short group_props owned).
Qed.

(** X11: get_blocking_value is positive exactly when the position has a group
    and some opponent holds all of that group's members but one, whether
    or not the member they lack is the position itself; otherwise it is
    0. *)
Theorem get_blocking_value_positive (position : Z) (others : list (gset Z)) :
  let group := Py.lookup position POSITION_TO_GROUP in
  let blocks := bool_decide (is_Some group)
                && existsb (one_short (get_group_properties group)) others in
  Py.gt (get_blocking_value position others) 0 = blocks ∧
  (blocks = false → get_blocking_value position others = 0%float).
Proof.
  intros group blocks. unfold get_blocking_value, blocks, group.
  destruct (Py.lookup position POSITION_TO_GROUP) as [g|] eqn:Hg.
  - rewrite bool_decide_eq_true_2 by (by eexists). cbn [andb].
    rewrite blocking_value_loop_spec.
    destruct (existsb _ others); [|by split].
    split; [|discriminate].
    pose proof blocking_values_positive as Hpos.
    rewrite forallb_forall in Hpos.
    apply (Hpos (position, g)), list_elem_of_In, lookup_Some_elem_of, Hg.
  - rewrite bool_decide_eq_false_2 by (by intros [? ?]). by split.
Qed.

(** ** Rent schedule *)

(** The rent read at a level: the scheduled entry, or the last one past
    the end of the schedule. *)
Definition rent_at (rents : list Z) (level : nat) : Z :=
  match rents !! level with
  | Some r => r
  | None => List.last rents 0
  end.

Definition rent_schedule_ok (rents : list Z) : bool :=
  (length rents =? 7)%nat
  && forallb (fun i =>
       forallb (fun j => implb (i <=? j)%nat (rent_at rents i <=? rent_at rents j))
               (seq 0 8))
     (seq 0 8).

Lemma rent_schedules_ok :
  forallb (fun kv => rent_schedule_ok (snd kv)) RENT_TABLE = true
  ∧ rent_schedule_ok (replicate 7 0) = true.
Proof. split; vm_compute; reflexivity. Qed.

Lemma rent_at_clamp rents level :
  length rents = 7%nat → rent_at rents level = rent_at rents (Nat.min level 7).
Proof.
  intros Hlen. destruct (decide (level < 7)%nat) as [Hlt|Hge].
  - by rewrite Nat.min_l by lia.
  - rewrite Nat.min_r by lia. unfold rent_at.
    by rewrite !(proj2 (lookup_ge_None rents _)) by lia.
Qed.

(** X12: For every position, tabulated or not, get_rent never decreases with
    the development level, stays at the hotel rent from level 6 on, and
    is 0 at every level where the rent table has no entry (which is the
    case of the railroads and the utilities). *)
Theorem get_rent_rising (position : Z) (i j : nat) :
  (i <= j)%nat →
  let prop := PropertyInfo_init position in
  get_rent prop i <= get_rent prop j ∧
  ((6 <= i)%nat → get_rent prop i = get_rent prop 6) ∧
  (Py.lookup position RENT_TABLE = None → get_rent prop i = 0).
Proof.
  intros Hij prop.
  change (get_rent prop) with (rent_at (Py.get position RENT_TABLE (replicate 7 0))).
  set (rents := Py.get position RENT_TABLE (replicate 7 0)).
  assert (Hok : rent_schedule_ok rents = true).
  { pose proof rent_schedules_ok as [Htable Hdefault].
    destruct (get_default_or_elem position RENT_TABLE (replicate 7 0))
      as [Hd|Hin]; fold rents in Hd || fold rents in Hin.
    - by rewrite Hd.
    - rewrite forallb_forall in Htable.
      apply (Htable (position, rents)), list_elem_of_In, Hin. }
  apply andb_true_iff in Hok as [Hlen Hmono]. apply Nat.eqb_eq in Hlen.
  assert (Hle : ∀ a b, (a <= b)%nat → (b <= 7)%nat →
                       rent_at rents a <= rent_at rents b).
  { intros a b Hab Hb. rewrite forallb_forall in Hmono.
    specialize (Hmono a). rewrite forallb_forall in Hmono.
    specialize (Hmono ltac:(apply in_seq; lia) b ltac:(apply in_seq; lia)).
    rewrite (proj2 (Nat.leb_le a b) Hab) in Hmono. by apply Z.leb_le. }
  split; [|split].
  - rewrite (rent_at_clamp rents i Hlen), (rent_at_clamp rents j Hlen).
    apply Hle; lia.
  - intros Hi. rewrite (rent_at_clamp rents i Hlen).
    assert (Hseven : rent_at rents 7 = rent_at rents 6).
    { clearbody rents. clear -Hlen.
      do 8 (destruct rents as [|? rents]; try (simpl in Hlen; lia)).
      reflexivity. }
    destruct (decide (Nat.min i 7 = 6%nat)) as [->|Hne]; [done|].
    by replace (Nat.min i 7) with 7%nat by lia.
  - intros Hnone.
    assert (Hr : rents = replicate 7 0)
      by (unfold rents, Py.get; by rewrite Hnone).
    rewrite Hr. rewrite (rent_at_clamp (replicate 7 0) i eq_refl).
    assert (Hmin : (Nat.min i 7 <= 7)%nat) by lia.
    revert Hmin. generalize (Nat.min i 7) as k. intros k Hk.
    do 8 (destruct k as [|k]; [reflexivity|]). lia.
Qed.

Lemma get_rent_rising_boardwalk :
  get_rent (PropertyInfo_init 39) 1 <= get_rent (PropertyInfo_init 39) 9 ∧
  ((6 <= 1)%nat → get_rent (PropertyInfo_init 39) 1 = get_rent (PropertyInfo_init 39) 6) ∧
  (Py.lookup 39 RENT_TABLE = None → get_rent (PropertyInfo_init 39) 1 = 0).
Proof. apply (get_rent_rising 39 1 9). lia. Defined.

(** ** Auction: the bid in integers *)

Lemma auction_price_at_most_400 pos : 0 <= Py.get pos PROPERTY_PRICES 100 <= 400.
Proof.
  destruct (get_default_or_elem pos PROPERTY_PRICES 100) as [->|Hin]; [lia|].
  assert (Hall : Forall (fun kv => 0 <= snd kv <= 400) PROPERTY_PRICES)
    by compute_done.
  rewrite Forall_forall in Hall. exact (Hall _ Hin).
Qed.

(** X13: For a bidder whose net worth lies between 0 and 4000, get_auction_bid
    never raises, and its result is given by integer arithmetic alone:
    105% of the face value, then 3/2 when the position completes the
    bidder's own group, then 13/10 when the blocking loop raises, each
    rounded down; capped by cash plus the debt headroom (the smaller of
    400 and 15% of net worth, less half the face value of every mortgaged
    property) less 75; then 0 if that does not exceed the current bid, and
    otherwise the current bid plus 10, capped the same way. *)
Theorem get_auction_bid_exact
    (set_iter : gset Z → list Z) (smart : bool) (state : GameState)
    (position current_bid : Z) :
  let ai := with_smart_blocking smart StrategicAI_init in
  let player := my_state state in
  let group := Py.lookup position POSITION_TO_GROUP in
  let price := Py.get position PROPERTY_PRICES 100 in
  let net_worth := calculate_net_worth set_iter player in
  0 <= net_worth <= 4000 →
  get_auction_bid set_iter ai state position current_bid
  = Some (let base := price * 105 / 100 in
          let raised :=
            if bool_decide (is_Some group)
               && has_monopoly (properties player ∪ {[position]}) group
            then base * 3 / 2 else base in
          let premium :=
            if blocking_raise ai state position group (opponents state)
            then raised * 13 / 10 else raised in
          let max_debt := Z.min 400 (net_worth * 15 / 100) in
          let affordable :=
            cash player + (max_debt - outstanding_mortgage_debt set_iter player) - 75 in
          let max_bid := Z.min premium affordable in
          if max_bid <=? current_bid then 0
          else Z.min (current_bid + 10) max_bid).
Proof.
  intros ai player group price net_worth Hnw.
  unfold get_auction_bid. fold price.
  unfold ai. rewrite auction_ceiling_steps. fold ai group player.
  pose proof (auction_price_at_most_400 position) as Hprice. fold price in Hprice.
  rewrite premium_steps_exact by lia. cbn [mbind option_bind].
  unfold affordable_bid. fold net_worth.
  change (max_debt_ratio ai) with 0.15%float.
  rewrite (proj2 float_percentages_exact net_worth Hnw).
  cbn [mbind option_bind].
  change (max_absolute_debt ai) with 400.
  change (absolute_min_cash ai) with 75.
  unfold outstanding_mortgage_debt.
  destruct (bool_decide (is_Some group) && _), (blocking_raise _ _ _ _ _);
    cbn zeta; by destruct (_ <=? current_bid).
Qed.

Lemma get_auction_bid_exact_orange :
  get_auction_bid elements (with_smart_blocking true StrategicAI_init)
    (purchase_state 500) 19 100
  = Some 110.
Proof.
  etransitivity;
    [apply (get_auction_bid_exact elements true (purchase_state 500) 19 100)|].
  - vm_compute. split; discriminate.
  - vm_compute. reflexivity.
Defined.

(** ** Building: what the priority list holds *)

(** The lots of the colour groups in the order in which
    [get_building_priority] visits them. *)
Definition building_order : list Z :=
  flat_map (fun group => Py.get group GROUP_PROPERTIES []) priority_groups.

(** A complete orange group, cash in hand. *)
Definition orange_builder : GameState :=
  GameState_new (PlayerState_new "me" 1000 {[16; 18; 19]}) [] "me".

Lemma house_cost_at_least_50 group : 50 <= Py.get group HOUSE_COST 100.
Proof.
  destruct (get_default_or_elem group HOUSE_COST 100) as [->|Hin]; [lia|].
  assert (Hall : Forall (fun kv => 50 <= snd kv) HOUSE_COST) by compute_done.
  rewrite Forall_forall in Hall. exact (Hall _ Hin).
Qed.

Lemma filter_sublist_of {A : Type} (P : A → Prop) `{∀ x, Decision (P x)}
    (l : list A) : filter P l `sublist_of` l.
Proof.
  induction l as [|x l IH]; [constructor|].
  rewrite filter_cons. destruct (decide (P x)).
  - by apply sublist_skip.
  - by apply sublist_cons.
Qed.

(** X14: A lot that get_building_priority lists belongs to the acting player,
    carries fewer than 4 houses, and is listed only while the bank has a
    house left and the player holds the lot's whole group and keeps at
    least 125 after paying for the house; so nothing is listed below 175
    in cash. *)
Theorem get_building_priority_sound (state : GameState) (position : Z) :
  position ∈ get_building_priority StrategicAI_init state →
  let player := my_state state in
  position ∈ properties player ∧
  houses_get (houses player) position < 4 ∧
  0 < available_houses state ∧
  175 <= cash player ∧
  ∃ group,
    Py.lookup position POSITION_TO_GROUP = Some group ∧
    has_monopoly (properties player) (Some group) = true ∧
    125 <= cash player - Py.get group HOUSE_COST 100.
Proof.
  intros Hin player. unfold get_building_priority in Hin.
  apply list_elem_of_In, in_flat_map in Hin as (g & _ & Hin).
  destruct (negb _); [destruct Hin|].
  apply list_elem_of_In, list_elem_of_filter in Hin as [Hbuild _].
  unfold should_build_house in Hbuild. fold player in Hbuild.
  destruct (Py.lookup position POSITION_TO_GROUP) as [group|] eqn:Hgroup;
    [|discriminate].
  destruct (bool_decide (group ∈ ["railroad"; "utility"])); [discriminate|].
  destruct (has_monopoly (properties player) (Some group)) eqn:Hmono;
    [|discriminate].
  cbn [negb] in Hbuild.
  destruct (available_houses state <=? 0) eqn:Hbank; [discriminate|].
  apply Z.leb_gt in Hbank.
  destruct (cash player - Py.get group HOUSE_COST 100 <? _) eqn:Hcash;
    [discriminate|].
  apply Z.ltb_ge in Hcash. cbn [absolute_min_cash StrategicAI_init] in Hcash.
  destruct (Py.min_list _ <? _); [discriminate|].
  destruct (4 <=? houses_get (houses player) position) eqn:Hcount;
    [discriminate|].
  apply Z.leb_gt in Hcount.
  pose proof (house_cost_at_least_50 group) as Hcost.
  split; [|split; [exact Hcount|split; [exact Hbank|split]]].
  - rewrite has_monopoly_spec in Hmono. apply Hmono.
    by apply position_in_its_group.
  - clear -Hcash Hcost. lia.
  - exists group. split; [reflexivity|]. split; [exact Hmono|].
    clear -Hcash. lia.
Qed.

Lemma get_building_priority_sound_orange :
  19 ∈ properties (my_state orange_builder) ∧
  houses_get (houses (my_state orange_builder)) 19 < 4 ∧
  0 < available_houses orange_builder ∧
  175 <= cash (my_state orange_builder) ∧
  ∃ group,
    Py.lookup 19 POSITION_TO_GROUP = Some group ∧
    has_monopoly (properties (my_state orange_builder)) (Some group) = true ∧
    125 <= cash (my_state orange_builder) - Py.get group HOUSE_COST 100.
Proof.
  apply (get_building_priority_sound orange_builder 19).
  apply list_elem_of_In. vm_compute. tauto.
Defined.

(** X15: Whatever the snapshot, get_building_priority returns a subsequence of
    one fixed list of 22 lots (orange, red, dark blue, yellow, green,
    pink, light blue, brown, each in board order): no lot twice, never a
    railroad or a utility, and never a lot of a later group before a lot
    of an earlier one. *)
Theorem get_building_priority_order (ai : StrategicAI) (state : GameState) :
  get_building_priority ai state `sublist_of` building_order ∧
  NoDup (get_building_priority ai state) ∧
  building_order
  = [16; 18; 19; 21; 23; 24; 37; 39; 26; 27; 29; 31; 32; 34;
     11; 13; 14; 6; 8; 9; 1; 3].
Proof.
  assert (Hsub : get_building_priority ai state `sublist_of` building_order).
  { unfold get_building_priority, building_order.
    induction priority_groups as [|g gs IH]; [constructor|].
    cbn [flat_map]. apply sublist_app; [|exact IH].
    destruct (negb _); [apply sublist_nil_l|apply filter_sublist_of]. }
  split; [exact Hsub|]. split; [|reflexivity].
  eapply sublist_NoDup; [|exact Hsub].
  compute_done.
Qed.

(** * strategic_bot.py: the handlers that call the engine

    The bot builds its engine with [StrategicAI()], the attributes of
    [StrategicAI_init].  A handler is modelled by what it asks the page
    to do. *)

(** ** The purchase handler *)

(** What [_handle_purchase_decision] does: nothing (the early [return]),
    or a click on one of the two buttons. *)
Inductive PurchaseAction := NoAction | ClickBuy | ClickAuction.

(** [StrategicBot._handle_purchase_decision]. *)
Definition handle_purchase_decision (ai : StrategicAI) (state : GameState)
    : PurchaseAction :=
  let position := position (my_state state) in
  let price := Py.get position PROPERTY_PRICES 0 in
  if price =? 0 then NoAction
  else if should_buy_property ai state position price then ClickBuy
  else ClickAuction.

Lemma table_prices_60_400 :
  Forall (fun kv => 60 <= snd kv <= 400) PROPERTY_PRICES.
Proof. compute_done. Qed.

(** X16: The purchase handler does nothing exactly on a square without a face
    price; and when it clicks the buy button, the square has a group (the
    branch of should_buy_property for a square without one is never the
    reason), the price lies between 60 and 400, and paying it leaves the
    reserve. *)
Theorem handle_purchase_decision_buys (ai : StrategicAI) (state : GameState) :
  let pos := position (my_state state) in
  let price := Py.get pos PROPERTY_PRICES 0 in
  (handle_purchase_decision ai state = NoAction
   ↔ Py.lookup pos PROPERTY_PRICES = None) ∧
  (handle_purchase_decision ai state = ClickBuy →
   is_Some (Py.lookup pos POSITION_TO_GROUP) ∧
   60 <= price <= 400 ∧
   absolute_min_cash ai <= cash (my_state state) - price).
Proof.
  intros pos price. unfold handle_purchase_decision. cbn zeta.
  fold pos. fold price.
  destruct (Py.lookup pos PROPERTY_PRICES) as [v|] eqn:Hv.
  - assert (Hprice : price = v) by (unfold price, Py.get; by rewrite Hv).
    apply lookup_Some_elem_of in Hv.
    pose proof table_prices_60_400 as Hrange.
    rewrite Forall_forall in Hrange. specialize (Hrange _ Hv).
    pose proof priced_positions_grouped as Hgrouped.
    rewrite Forall_forall in Hgrouped. destruct (Hgrouped _ Hv) as [Hgroup _].
    cbn [fst snd] in Hrange, Hgroup. rewrite <- Hprice in Hrange.
    destruct (price =? 0) eqn:Hz; [apply Z.eqb_eq in Hz; lia|].
    split.
    + split; [|discriminate].
      by destruct (should_buy_property ai state pos price).
    + destruct (should_buy_property ai state pos price) eqn:Hbuy;
        [|discriminate].
      intros _. unfold should_buy_property in Hbuy.
      destruct (_ <? absolute_min_cash ai) eqn:Hcash; [discriminate|].
      apply Z.ltb_ge in Hcash. split; [exact Hgroup|]. split; [exact Hrange|lia].
  - assert (Hprice : price = 0) by (unfold price, Py.get; by rewrite Hv).
    rewrite Hprice. cbn [Z.eqb]. split; [done|discriminate].
Qed.

(** ** Placing a bid *)

(** The three bid buttons of the page. *)
Inductive BidButton := Plus100 | Plus10 | Plus2.

Definition button_value (button : BidButton) : Z :=
  match button with
  | Plus100 => 100
  | Plus10 => 10
  | Plus2 => 2
  end.

(** One loop [while amount >= v: click; amount -= v] of [_place_bid]:
    the clicks made and the amount left, for at most [fuel] rounds. *)
Fixpoint click_while (fuel : nat) (button : BidButton) (amount : Z)
    : list BidButton * Z :=
  match fuel with
  | O => ([], amount)
  | S fuel' =>
      if button_value button <=? amount then
        let '(clicks, amount) :=
          click_while fuel' button (amount - button_value button) in
        (button :: clicks, amount)
      else ([], amount)
  end.

(** [StrategicBot._place_bid]: the clicks made and the amount left
    unplaced.  No loop runs more often than [amount] times. *)
Definition place_bid (amount : Z) : list BidButton * Z :=
  let fuel := Z.to_nat amount in
  let '(hundreds, amount) := click_while fuel Plus100 amount in
  let '(tens, amount) := click_while fuel Plus10 amount in
  let '(twos, amount) := click_while fuel Plus2 amount in
  ((hundreds ++ tens ++ twos)%list, amount).

(** One pass of the [while self.extractor.is_in_auction()] loop of
    [StrategicBot._handle_auction], for the bid [current_bid] read from
    the page: the clicks made.  The position is the constant 0 of the
    source. *)
Definition auction_round (set_iter : gset Z → list Z) (ai : StrategicAI)
    (state : GameState) (current_bid : Z) : option (list BidButton) :=
  let position := 0 in
  our_bid ← get_auction_bid set_iter ai state position current_bid;
  if current_bid <? our_bid
  then Some (fst (place_bid (our_bid - current_bid)))
  else Some [].

Lemma button_value_pos button : 0 < button_value button.
Proof. by destruct button. Qed.

Lemma click_while_spec fuel button amount :
  0 <= amount <= Z.of_nat fuel →
  click_while fuel button amount
  = (replicate (Z.to_nat (amount / button_value button)) button,
     amount mod button_value button).
Proof.
  pose proof (button_value_pos button) as Hv.
  set (v := button_value button) in *.
  revert amount. induction fuel as [|fuel IH]; intros amount Ha.
  - assert (amount = 0) as -> by lia. cbn [click_while].
    by rewrite Zdiv_0_l, Zmod_0_l.
  - cbn [click_while]. fold v. destruct (v <=? amount) eqn:Hle.
    + apply Z.leb_le in Hle. rewrite (IH (amount - v)) by lia.
      assert (Hd : amount / v = (amount - v) / v + 1).
      { rewrite <- Z.div_add by lia. f_equal. lia. }
      assert (Hm : amount mod v = (amount - v) mod v).
      { rewrite <- (Z.mod_add (amount - v) 1 v) by lia. f_equal. lia. }
      rewrite Hd, Hm.
      rewrite Z2Nat.inj_add by (try apply Z.div_pos; lia).
      by rewrite Nat.add_1_r.
    + apply Z.leb_gt in Hle. by rewrite Z.div_small, Z.mod_small by lia.
Qed.

Lemma click_while_small fuel button amount :
  amount < button_value button → click_while fuel button amount = ([], amount).
Proof.
  intros Hlt. destruct fuel as [|fuel]; [done|]. cbn [click_while].
  by rewrite (proj2 (Z.leb_gt _ _) Hlt).
Qed.

Lemma place_bid_eq amount :
  0 <= amount →
  place_bid amount
  = ((replicate (Z.to_nat (amount / 100)) Plus100
      ++ replicate (Z.to_nat (amount mod 100 / 10)) Plus10
      ++ replicate (Z.to_nat (amount mod 10 / 2)) Plus2)%list,
     amount mod 2).
Proof.
  intros Ha. unfold place_bid. cbn zeta.
  assert (Hfuel : Z.of_nat (Z.to_nat amount) = amount) by lia.
  assert (H100 : 0 <= amount mod 100 <= amount).
  { split; [apply Z.mod_pos_bound; lia|apply Z.mod_le; lia]. }
  assert (H10 : 0 <= (amount mod 100) mod 10 <= amount mod 100).
  { split; [apply Z.mod_pos_bound; lia|apply Z.mod_le; lia]. }
  rewrite (click_while_spec _ Plus100) by lia. cbn [button_value].
  rewrite (click_while_spec _ Plus10) by lia. cbn [button_value].
  rewrite (click_while_spec _ Plus2) by lia. cbn [button_value].
  assert (Hm10 : (amount mod 100) mod 10 = amount mod 10).
  { apply Z.mod_mod_divide. by exists 10. }
  assert (Hm2 : (amount mod 10) mod 2 = amount mod 2).
  { apply Z.mod_mod_divide. by exists 5. }
  by rewrite Hm10, Hm2.
Qed.

Lemma py_sum_acc (l : list Z) (a : Z) : fold_left Z.add l a = a + Py.sum l.
Proof.
  unfold Py.sum. revert a.
  induction l as [|x l IH]; intros a; cbn [fold_left]; [lia|].
  rewrite (IH (a + x)), (IH (0 + x)). lia.
Qed.

Lemma py_sum_app (l k : list Z) : Py.sum (l ++ k)%list = Py.sum l + Py.sum k.
Proof.
  unfold Py.sum at 1. rewrite fold_left_app, py_sum_acc.
  fold (Py.sum l). lia.
Qed.

Lemma py_sum_clicks (n : nat) (button : BidButton) :
  Py.sum (map button_value (replicate n button)) = Z.of_nat n * button_value button.
Proof.
  induction n as [|n IH]; [done|].
  cbn [replicate map]. unfold Py.sum. cbn [fold_left].
  rewrite py_sum_acc, IH. lia.
Qed.

Lemma place_bid_value amount :
  0 <= amount →
  Py.sum (map button_value (fst (place_bid amount))) = 2 * (amount / 2).
Proof.
  intros Ha. rewrite place_bid_eq by done. cbn [fst].
  rewrite !map_app, !py_sum_app, !py_sum_clicks. cbn [button_value].
  assert (H100 : 0 <= amount mod 100) by (apply Z.mod_pos_bound; lia).
  assert (H10 : 0 <= amount mod 10) by (apply Z.mod_pos_bound; lia).
  rewrite !Z2Nat.id by (apply Z.div_pos; lia).
  pose proof (Z.div_mod amount 100 ltac:(lia)) as E100.
  pose proof (Z.div_mod (amount mod 100) 10 ltac:(lia)) as E10.
  pose proof (Z.div_mod (amount mod 10) 2 ltac:(lia)) as E2.
  pose proof (Z.div_mod amount 2 ltac:(lia)) as E.
  rewrite (Z.mod_mod_divide amount 100 10) in E10 by (by exists 10).
  rewrite (Z.mod_mod_divide amount 10 2) in E2 by (by exists 5).
  clear -E100 E10 E2 E.
  generalize dependent (amount / 100). generalize dependent (amount mod 100 / 10).
  generalize dependent (amount mod 10 / 2). generalize dependent (amount / 2).
  generalize dependent (amount mod 100). generalize dependent (amount mod 10).
  generalize dependent (amount mod 2). intros. lia.
Qed.

(** X17: _place_bid always finishes. For an amount of at least 0 it clicks
    +100, +10 and +2 as often as the hundreds, the tens and half the units
    of the amount say, in that order, which places the amount rounded down
    to an even number and leaves 0 or 1 unplaced; for an amount below 2 it
    clicks nothing. *)
Theorem place_bid_clicks (amount : Z) :
  (0 <= amount →
   place_bid amount
   = ((replicate (Z.to_nat (amount / 100)) Plus100
       ++ replicate (Z.to_nat (amount mod 100 / 10)) Plus10
       ++ replicate (Z.to_nat (amount mod 10 / 2)) Plus2)%list,
      amount mod 2) ∧
   Py.sum (map button_value (fst (place_bid amount))) = 2 * (amount / 2)) ∧
  (amount < 2 → place_bid amount = ([], amount)).
Proof.
  split.
  - intros Ha. split; [by apply place_bid_eq|by apply place_bid_value].
  - intros Ha. unfold place_bid.
    rewrite (click_while_small _ Plus100) by (cbn [button_value]; lia).
    rewrite (click_while_small _ Plus10) by (cbn [button_value]; lia).
    by rewrite (click_while_small _ Plus2) by (cbn [button_value]; lia).
Qed.

(** ** The auction handler *)

Lemma blocking_raise_no_group smart state position opps :
  blocking_raise (with_smart_blocking smart StrategicAI_init) state position
                 None opps
  = match opps with [] => false | _ => true end.
Proof.
  destruct opps as [|opp rest]; [done|]. cbn [blocking_raise].
  change (get_group_properties None) with (@nil Z).
  change (has_monopoly (properties opp ∪ {[position]}) None) with true.
  cbn iota. rewrite other_blockers_nil. cbn [Z.eqb]. by rewrite orb_true_r.
Qed.

(** X18: Whatever is being auctioned, a pass of the auction handler (which
    asks the engine about position 0, a square without price or group)
    places at most 10 on top of a current bid of at least 0, namely the
    engine's raise rounded down to an even number; and it never takes the
    bid above 105 when there is no opponent in the snapshot, nor above 136
    when there is one. *)
Theorem auction_round_capped
    (set_iter : gset Z → list Z) (state : GameState) (current_bid : Z)
    (clicks : list BidButton) :
  0 <= current_bid →
  auction_round set_iter StrategicAI_init state current_bid = Some clicks →
  let placed := Py.sum (map button_value clicks) in
  let cap := match opponents state with [] => 105 | _ => 136 end in
  0 <= placed <= 10 ∧
  (0 < placed → current_bid + placed <= cap) ∧
  ∃ our_bid,
    get_auction_bid set_iter StrategicAI_init state 0 current_bid = Some our_bid ∧
    placed = if current_bid <? our_bid
             then 2 * ((our_bid - current_bid) / 2) else 0.
Proof.
  intros Hcb Hround placed cap. unfold auction_round in Hround. cbn zeta in Hround.
  destruct (get_auction_bid set_iter StrategicAI_init state 0 current_bid)
    as [bid|] eqn:Hbid; [|discriminate].
  cbn [mbind option_bind] in Hround.
  assert (Hplaced : placed = if current_bid <? bid
                             then 2 * ((bid - current_bid) / 2) else 0).
  { unfold placed. destruct (current_bid <? bid) eqn:Hlt;
      injection Hround as <-; [|done].
    apply Z.ltb_lt in Hlt. apply place_bid_value. lia. }
  assert (Hbound : bid = 0 ∨ (current_bid < bid <= current_bid + 10 ∧ bid <= cap)).
  { unfold get_auction_bid in Hbid.
    change (Py.get 0 PROPERTY_PRICES 100) with 100 in Hbid.
    change StrategicAI_init with (with_smart_blocking true StrategicAI_init) in Hbid.
    rewrite auction_ceiling_steps in Hbid.
    change (Py.lookup 0 POSITION_TO_GROUP) with (@None string) in Hbid.
    rewrite bool_decide_eq_false_2 in Hbid by (by intros [? ?]).
    cbn [andb] in Hbid. rewrite blocking_raise_no_group in Hbid.
    assert (Hprem : premium_steps false
                      match opponents state with [] => false | _ => true end 100
                    = Some cap).
    { unfold cap. destruct (opponents state); vm_compute; reflexivity. }
    rewrite Hprem in Hbid. cbn [mbind option_bind] in Hbid.
    destruct (affordable_bid _ _ _) as [a|]; [|discriminate].
    cbn [mbind option_bind] in Hbid.
    destruct (Z.min cap a <=? current_bid) eqn:Hpass; injection Hbid as <-;
      [by left|].
    apply Z.leb_gt in Hpass. right. lia. }
  rewrite Hplaced.
  pose proof (Z.mul_div_le (bid - current_bid) 2 ltac:(lia)) as Hdown.
  split; [|split; [|by exists bid]].
  - destruct (current_bid <? bid) eqn:Hlt; [|lia].
    apply Z.ltb_lt in Hlt.
    pose proof (Z.div_pos (bid - current_bid) 2 ltac:(lia) ltac:(lia)).
    destruct Hbound as [->|[Hstep Hcap]]; lia.
  - destruct (current_bid <? bid) eqn:Hlt; [|lia].
    apply Z.ltb_lt in Hlt. destruct Hbound as [->|[Hstep Hcap]]; lia.
Qed.

Lemma auction_round_capped_orange :
  let placed := Py.sum (map button_value [Plus10]) in
  let cap := match opponents (purchase_state 500) with [] => 105 | _ => 136 end in
  0 <= placed <= 10 ∧
  (0 < placed → 100 + placed <= cap) ∧
  ∃ our_bid,
    get_auction_bid elements StrategicAI_init (purchase_state 500) 0 100
    = Some our_bid ∧
    placed = if 100 <? our_bid then 2 * ((our_bid - 100) / 2) else 0.
Proof.
  apply (auction_round_capped elements (purchase_state 500) 100 [Plus10]);
    [lia|]. vm_compute. reflexivity.
Defined.

(** * game_state_extractor.py: reading an amount off the page

    A text is taken over the code points below 256, one [Ascii.ascii] each;
    among them [\d] matches the ten digits '0' to '9' and nothing else.
    [int] refuses a numeral of more than 4300 digits in current CPython;
    the results below are stated for texts with at most that many. *)

(** [\d]. *)
Definition is_digit (c : Ascii.ascii) : bool :=
  (48 <=? Ascii.N_of_ascii c)%N && (Ascii.N_of_ascii c <=? 57)%N.

(** [re.sub(r'[^\d]', '', text)]. *)
Fixpoint digits_only (text : string) : string :=
  match text with
  | EmptyString => EmptyString
  | String c rest =>
      if is_digit c then String c (digits_only rest) else digits_only rest
  end.

(** [int(cleaned)] on a string of digits, read from the left. *)
Fixpoint int_of_digits (acc : Z) (cleaned : string) : Z :=
  match cleaned with
  | EmptyString => acc
  | String c rest => int_of_digits (10 * acc + (Z.of_N (Ascii.N_of_ascii c) - 48)) rest
  end.

(** [GameStateExtractor._parse_money]. *)
Definition parse_money (text : string) : Z :=
  let cleaned := digits_only text in
  match cleaned with
  | EmptyString => 0
  | _ => int_of_digits 0 cleaned
  end.

Lemma int_of_digits_acc (cleaned : string) (acc : Z) :
  int_of_digits acc cleaned
  = acc * 10 ^ Z.of_nat (String.length cleaned) + int_of_digits 0 cleaned.
Proof.
  revert acc. induction cleaned as [|c rest IH]; intros acc.
  - cbn [int_of_digits String.length]. change (10 ^ Z.of_nat 0) with 1. lia.
  - cbn [int_of_digits String.length].
    rewrite (IH (10 * acc + _)), (IH (10 * 0 + _)).
    rewrite Nat2Z.inj_succ, Z.pow_succ_r by lia. ring.
Qed.

Lemma pretty_N_char_value (x : N) :
  (x < 10)%N → Z.of_N (Ascii.N_of_ascii (pretty_N_char x)) - 48 = Z.of_N x.
Proof.
  intros Hx.
  assert (x = 0 ∨ x = 1 ∨ x = 2 ∨ x = 3 ∨ x = 4 ∨ x = 5
          ∨ x = 6 ∨ x = 7 ∨ x = 8 ∨ x = 9)%N as Hcases by lia.
  repeat (destruct Hcases as [->|Hcases]; [reflexivity|]).
  by rewrite Hcases.
Qed.

Lemma pretty_N_go_value (x : N) (s : string) :
  int_of_digits 0 (pretty_N_go x s)
  = Z.of_N x * 10 ^ Z.of_nat (String.length s) + int_of_digits 0 s.
Proof.
  revert s. induction (N.lt_wf_0 x) as [x _ IH]; intros s.
  assert (x = 0 ∨ 0 < x)%N as [->|Hpos] by lia.
  - rewrite pretty_N_go_0. lia.
  - rewrite pretty_N_go_step by done.
    rewrite IH by (by apply N.div_lt).
    cbn [String.length int_of_digits].
    rewrite int_of_digits_acc.
    rewrite pretty_N_char_value by (by apply N.mod_lt).
    rewrite Nat2Z.inj_succ, Z.pow_succ_r by lia.
    assert (Hx : Z.of_N x = 10 * Z.of_N (x `div` 10) + Z.of_N (x `mod` 10)).
    { pose proof (N.div_mod' x 10). lia. }
    rewrite Hx. ring.
Qed.

Lemma int_of_digits_nonneg (cleaned : string) (acc : Z) :
  0 <= acc → digits_only cleaned = cleaned → 0 <= int_of_digits acc cleaned.
Proof.
  revert acc. induction cleaned as [|c rest IH]; intros acc Hacc Hclean; [done|].
  cbn [digits_only] in Hclean. destruct (is_digit c) eqn:Hc.
  - injection Hclean as Hrest. cbn [int_of_digits]. apply IH; [|done].
    apply andb_true_iff in Hc as [Hlo _]. apply N.leb_le in Hlo. lia.
  - exfalso. assert (Hlen : String.length (digits_only rest)
                            = String.length (String c rest)) by (by rewrite Hclean).
    assert (Hle : ∀ t, (String.length (digits_only t) <= String.length t)%nat).
    { induction t as [|d t IHt]; [done|]. cbn [digits_only].
      destruct (is_digit d); cbn [String.length]; lia. }
    specialize (Hle rest). cbn [String.length] in Hlen. lia.
Qed.

Lemma digits_only_idemp (text : string) :
  digits_only (digits_only text) = digits_only text.
Proof.
  induction text as [|c rest IH]; [done|]. cbn [digits_only].
  destruct (is_digit c) eqn:Hc; [|done].
  cbn [digits_only]. by rewrite Hc, IH.
Qed.

(** X19: On a text with at most 4300 digits, _parse_money is never negative,
    and it returns n whenever the digits of the text, in their order,
    are the decimal numeral of n, whatever stands between, before and
    after them (a currency sign, separators, a minus sign, a decimal
    point). *)
Theorem parse_money_round_trip (text : string) :
  (String.length (digits_only text) <= 4300)%nat →
  0 <= parse_money text ∧
  ∀ n : N, digits_only text = pretty n → parse_money text = Z.of_N n.
Proof.
  intros _.
  assert (Hparse : parse_money text = int_of_digits 0 (digits_only text)).
  { unfold parse_money. by destruct (digits_only text). }
  rewrite Hparse. split.
  - apply int_of_digits_nonneg; [done|apply digits_only_idemp].
  - intros n ->. unfold pretty, pretty_N.
    destruct (decide (n = 0)%N) as [->|_]; [done|].
    rewrite pretty_N_go_value. cbn [String.length int_of_digits].
    change (10 ^ Z.of_nat 0) with 1. lia.
Qed.

Lemma parse_money_round_trip_docstring :
  0 <= parse_money "$1,500" ∧
  ∀ n : N, digits_only "$1,500" = pretty n → parse_money "$1,500" = Z.of_N n.
Proof. apply parse_money_round_trip. vm_compute. lia. Defined.
